(** * sunxi_hdmi_fb: a shallow embedding of the display-control utility

    The development follows [sunxi_hdmi_fb.c].  Machine integers are
    modelled as [Z] with the wrap-around written out ([to_u32], [to_s32]);
    the target is 32-bit ARM (arm-linux-gnueabihf), so [unsigned long] is a
    32-bit word.  C strings are [string]s without NUL characters.  The
    process globals and the sequence of system calls issued so far form the
    [world]; the kernel side is an oracle answering each call from the
    history of earlier calls.  Console output (printf, perror, the DEBUG
    macro, the usage text) never influences control flow and is left out,
    and so are the signal handlers [main] installs: the model has no
    faults. *)

From Stdlib Require Import ZArith List String Ascii Bool Lia.
Import ListNotations.
Open Scope string_scope.
Open Scope list_scope.
Open Scope Z_scope.

(** ** Machine integers *)

Definition to_u32 (x : Z) : Z := x mod 2 ^ 32.

Definition to_s32 (x : Z) : Z :=
  let y := x mod 2 ^ 32 in if y <? 2 ^ 31 then y else y - 2 ^ 32.

(** ** Enumerations *)

Inductive de_version_t := DE_VERSION_UNKNOWN | DE_VERSION_1 | DE_VERSION_2.

Definition de_version_eqb (a b : de_version_t) : bool :=
  match a, b with
  | DE_VERSION_UNKNOWN, DE_VERSION_UNKNOWN => true
  | DE_VERSION_1, DE_VERSION_1 => true
  | DE_VERSION_2, DE_VERSION_2 => true
  | _, _ => false
  end.

(** [disp_tv_mode] values are carried as the [int] they convert to;
    [(disp_tv_mode)-1] is [-1]. *)
Definition disp_tv_mode := Z.

Definition DISP_TV_MOD_480I : disp_tv_mode := 0.
Definition DISP_TV_MOD_576I : disp_tv_mode := 1.
Definition DISP_TV_MOD_480P : disp_tv_mode := 2.
Definition DISP_TV_MOD_576P : disp_tv_mode := 3.
Definition DISP_TV_MOD_720P_50HZ : disp_tv_mode := 4.
Definition DISP_TV_MOD_720P_60HZ : disp_tv_mode := 5.
Definition DISP_TV_MOD_1080I_50HZ : disp_tv_mode := 6.
Definition DISP_TV_MOD_1080I_60HZ : disp_tv_mode := 7.
Definition DISP_TV_MOD_1080P_24HZ : disp_tv_mode := 8.
Definition DISP_TV_MOD_1080P_50HZ : disp_tv_mode := 9.
Definition DISP_TV_MOD_1080P_60HZ : disp_tv_mode := 10.
Definition DISP_TV_MOD_1080P_25HZ : disp_tv_mode := 26.
Definition DISP_TV_MOD_1080P_30HZ : disp_tv_mode := 27.
Definition DISP_TV_MOD_3840_2160P_30HZ : disp_tv_mode := 28.
Definition DISP_TV_MOD_3840_2160P_25HZ : disp_tv_mode := 29.
Definition DISP_TV_MOD_3840_2160P_24HZ : disp_tv_mode := 30.
Definition DISP_TV_MODE_NUM : Z := 31.

Definition DISP_OUTPUT_TYPE_NONE : Z := 0.
Definition DISP_OUTPUT_TYPE_HDMI : Z := 4.

Definition DEFAULT_HDMI_MODE : disp_tv_mode := DISP_TV_MOD_720P_50HZ.

(** ** Mode table *)

Record mode_info_t := {
  mi_mode : disp_tv_mode;
  mi_name : option string;   (* [None] is the NULL name of the sentinel *)
  mi_width : Z;
  mi_height : Z;
  mi_refresh : Z
}.

Definition mk_mode (m : disp_tv_mode) (n : string) (w h r : Z) : mode_info_t :=
  {| mi_mode := m; mi_name := Some n; mi_width := w; mi_height := h; mi_refresh := r |}.

Definition mode_sentinel : mode_info_t :=
  {| mi_mode := -1; mi_name := None; mi_width := 0; mi_height := 0; mi_refresh := 0 |}.

Definition mode_table : list mode_info_t :=
  [ mk_mode DISP_TV_MOD_480I "480i" 720 480 60;
    mk_mode DISP_TV_MOD_576I "576i" 720 576 50;
    mk_mode DISP_TV_MOD_480P "480p" 720 480 60;
    mk_mode DISP_TV_MOD_576P "576p" 720 576 50;
    mk_mode DISP_TV_MOD_720P_50HZ "720p50" 1280 720 50;
    mk_mode DISP_TV_MOD_720P_60HZ "720p60" 1280 720 60;
    mk_mode DISP_TV_MOD_1080I_50HZ "1080i50" 1920 1080 50;
    mk_mode DISP_TV_MOD_1080I_60HZ "1080i60" 1920 1080 60;
    mk_mode DISP_TV_MOD_1080P_24HZ "1080p24" 1920 1080 24;
    mk_mode DISP_TV_MOD_1080P_50HZ "1080p50" 1920 1080 50;
    mk_mode DISP_TV_MOD_1080P_60HZ "1080p60" 1920 1080 60;
    mk_mode DISP_TV_MOD_1080P_25HZ "1080p25" 1920 1080 25;
    mk_mode DISP_TV_MOD_1080P_30HZ "1080p30" 1920 1080 30;
    mk_mode DISP_TV_MOD_3840_2160P_30HZ "2160p30" 3840 2160 30;
    mk_mode DISP_TV_MOD_3840_2160P_25HZ "2160p25" 3840 2160 25;
    mk_mode DISP_TV_MOD_3840_2160P_24HZ "2160p24" 3840 2160 24;
    mode_sentinel ].

(** [&mode_table[i]] is the index [i]; [mode_at] dereferences it. *)
Definition mode_at (i : nat) : mode_info_t := nth i mode_table mode_sentinel.

(** ** String primitives of the C library *)

Definition tolower (c : ascii) : ascii :=
  let n := nat_of_ascii c in
  if (65 <=? n)%nat && (n <=? 90)%nat then ascii_of_nat (n + 32) else c.

Definition char_code (c : ascii) : Z := Z.of_nat (nat_of_ascii c).

Fixpoint strcasecmp (s1 s2 : string) : Z :=
  match s1, s2 with
  | EmptyString, EmptyString => 0
  | EmptyString, String c2 _ => 0 - char_code (tolower c2)
  | String c1 _, EmptyString => char_code (tolower c1)
  | String c1 r1, String c2 r2 =>
      let d := char_code (tolower c1) - char_code (tolower c2) in
      if d =? 0 then strcasecmp r1 r2 else d
  end.

(** ** Mode lookup *)

(** The loop [for (i = 0; mode_table[i].name != NULL; i++) if (hit) return
    &mode_table[i]; return NULL;] over the entries from index [i] on. *)
Fixpoint table_scan (hit : string -> mode_info_t -> bool)
         (tbl : list mode_info_t) (i : nat) : option nat :=
  match tbl with
  | [] => None
  | e :: rest =>
      match mi_name e with
      | None => None
      | Some n => if hit n e then Some i else table_scan hit rest (S i)
      end
  end.

Definition find_mode_by_resolution (w h refresh : Z) : option nat :=
  table_scan (fun _ e =>
                if (mi_width e =? w) && (mi_height e =? h)
                then (refresh =? 0) || (mi_refresh e =? refresh)
                else false)
             mode_table 0.

Definition find_mode_by_name (name : string) : option nat :=
  table_scan (fun n _ => strcasecmp n name =? 0) mode_table 0.

Definition get_mode_info (mode : disp_tv_mode) : option nat :=
  table_scan (fun _ e => mi_mode e =? mode) mode_table 0.

(** ** Number scanning (strtol, atoi and the scanf conversions) *)

Definition isspace (c : ascii) : bool :=
  let n := nat_of_ascii c in
  (n =? 32)%nat || ((9 <=? n)%nat && (n <=? 13)%nat).

Definition isdigit (c : ascii) : bool :=
  let n := nat_of_ascii c in (48 <=? n)%nat && (n <=? 57)%nat.

Fixpoint skip_space (s : string) : string :=
  match s with
  | String c r => if isspace c then skip_space r else s
  | EmptyString => s
  end.

(** The decimal digits at the head of [s]: their value on top of [acc],
    how many there are, and what follows them. *)
Fixpoint scan_digits (s : string) (acc : Z) (n : nat) : Z * nat * string :=
  match s with
  | String c r =>
      if isdigit c then scan_digits r (acc * 10 + (char_code c - 48)) (S n)
      else (acc, n, s)
  | EmptyString => (acc, n, s)
  end.

(** An optionally signed decimal number after optional white space:
    sign, magnitude and the rest of the input; [None] when there is no
    digit. *)
Definition scan_number (s : string) : option (bool * Z * string) :=
  let s1 := skip_space s in
  let '(neg, s2) :=
    match s1 with
    | String "-" r => (true, r)
    | String "+" r => (false, r)
    | _ => (false, s1)
    end in
  match scan_digits s2 0 0 with
  | (_, O, _) => None
  | (v, _, rest) => Some (neg, v, rest)
  end.

Definition LONG_MAX : Z := 2 ^ 31 - 1.
Definition LONG_MIN : Z := - 2 ^ 31.
Definition ULONG_MAX : Z := 2 ^ 32 - 1.

(** [strtol(s, &endptr, 10)]: the value, saturated to the range of
    [long], and [endptr]; without a conversion the value is 0 and
    [endptr] is [s]. *)
Definition strtol (s : string) : Z * string :=
  match scan_number s with
  | None => (0, s)
  | Some (neg, v, rest) =>
      let x := if neg then - v else v in
      (Z.max LONG_MIN (Z.min LONG_MAX x), rest)
  end.

Definition atoi (s : string) : Z := to_s32 (fst (strtol s)).

(** The scanf conversion [%d]: the stored [int] and the rest. *)
Definition scan_d (s : string) : option (Z * string) :=
  match scan_number s with
  | None => None
  | Some (neg, v, rest) =>
      let x := if neg then - v else v in
      Some (to_s32 (Z.max LONG_MIN (Z.min LONG_MAX x)), rest)
  end.

(** The scanf conversion [%u], converting as strtoul does: a magnitude
    beyond [ULONG_MAX] saturates, a minus sign negates modulo 2^32. *)
Definition scan_u (s : string) : option (Z * string) :=
  match scan_number s with
  | None => None
  | Some (neg, v, rest) =>
      let x := if ULONG_MAX <? v then ULONG_MAX
               else if neg then to_u32 (- v) else v in
      Some (x, rest)
  end.

Definition scan_EOF : Z := -1.

(** A conversion directive that finds the input exhausted (after white
    space) before anything was converted makes sscanf return EOF. *)
Definition at_end (s : string) : bool :=
  match skip_space s with EmptyString => true | _ => false end.

(** [sscanf(str, "%ux%u@%u", &a, &b, &c)]: the count and the contents of
    the three variables afterwards. *)
Definition sscanf_u_x_u_at_u (str : string) (a b c : Z) : Z * (Z * Z * Z) :=
  match scan_u str with
  | None => (if at_end str then scan_EOF else 0, (a, b, c))
  | Some (a', s1) =>
      match s1 with
      | String "x" s2 =>
          match scan_u s2 with
          | None => (1, (a', b, c))
          | Some (b', s3) =>
              match s3 with
              | String "@" s4 =>
                  match scan_u s4 with
                  | None => (2, (a', b', c))
                  | Some (c', _) => (3, (a', b', c'))
                  end
              | _ => (2, (a', b', c))
              end
          end
      | _ => (1, (a', b, c))
      end
  end.

(** [sscanf(str, "%ux%u", &a, &b)]. *)
Definition sscanf_u_x_u (str : string) (a b : Z) : Z * (Z * Z) :=
  match scan_u str with
  | None => (if at_end str then scan_EOF else 0, (a, b))
  | Some (a', s1) =>
      match s1 with
      | String "x" s2 =>
          match scan_u s2 with
          | None => (1, (a', b))
          | Some (b', _) => (2, (a', b'))
          end
      | _ => (1, (a', b))
      end
  end.

(** [sscanf(str, "%ux%ux%d", &a, &b, &d)]. *)
Definition sscanf_u_x_u_x_d (str : string) (a b d : Z) : Z * (Z * Z * Z) :=
  match scan_u str with
  | None => (if at_end str then scan_EOF else 0, (a, b, d))
  | Some (a', s1) =>
      match s1 with
      | String "x" s2 =>
          match scan_u s2 with
          | None => (1, (a', b, d))
          | Some (b', s3) =>
              match s3 with
              | String "x" s4 =>
                  match scan_d s4 with
                  | None => (2, (a', b', d))
                  | Some (d', _) => (3, (a', b', d'))
                  end
              | _ => (2, (a', b', d))
              end
          end
      | _ => (1, (a', b, d))
      end
  end.

(** [fscanf(f, "%d", &state) == 1] on a freshly opened file with content
    [s]: the value when the conversion succeeds. *)
Definition fscanf_d (s : string) : option Z :=
  match scan_d s with
  | Some (v, _) => Some v
  | None => None
  end.

(** ** Argument parsing *)

(** [width], [height] are the prior contents of the pointed variables;
    the result carries their contents afterwards and the content of
    [*refresh_ptr] (a caller passing NULL for [refresh] never sees it). *)
Definition parse_resolution (str : string) (width height : Z) : Z * (Z * Z * Z) :=
  let refresh := 0 in
  let '(n, (width1, height1, refresh1)) :=
    sscanf_u_x_u_at_u str width height refresh in
  if 2 <=? n then (0, (width1, height1, refresh1))
  else
    let '(n2, (width2, height2)) := sscanf_u_x_u str width1 height1 in
    if n2 =? 2 then (0, (width2, height2, refresh1))
    else (-1, (width2, height2, refresh1)).

Definition parse_resolution_depth (str : string) (width height depth : Z)
  : Z * (Z * Z * Z) :=
  let '(n, vars) := sscanf_u_x_u_x_d str width height depth in
  if n =? 3 then (0, vars) else (-1, vars).

(** ** Device paths and command codes *)

Definition DISP_DEV : string := "/dev/disp".
Definition FB_DEV : string := "/dev/fb0".
Definition HDMI_STATE : string := "/sys/class/switch/hdmi/state".
Definition CPUINFO : string := "/proc/cpuinfo".

Definition DE1_CMD_SCN_GET_WIDTH : Z := 0x08.
Definition DE1_CMD_SCN_GET_HEIGHT : Z := 0x09.
Definition DE1_CMD_GET_OUTPUT_TYPE : Z := 0x0a.
Definition DE1_CMD_HDMI_ON : Z := 0x1c0.
Definition DE1_CMD_HDMI_OFF : Z := 0x1c1.
Definition DE1_CMD_HDMI_SET_MODE : Z := 0x1c2.
Definition DE1_CMD_HDMI_GET_MODE : Z := 0x1c3.
Definition DE1_CMD_HDMI_SUPPORT_MODE : Z := 0x1c4.
Definition DE1_CMD_HDMI_GET_HPD : Z := 0x1c5.
Definition DE1_CMD_FB_REQUEST : Z := 0x280.
Definition DE1_CMD_FB_RELEASE : Z := 0x281.

Definition DE2_CMD_GET_SCN_WIDTH : Z := 0x07.
Definition DE2_CMD_GET_SCN_HEIGHT : Z := 0x08.
Definition DE2_CMD_GET_OUTPUT_TYPE : Z := 0x09.
Definition DE2_CMD_DEVICE_SWITCH : Z := 0x0f.
Definition DE2_CMD_GET_OUTPUT : Z := 0x10.
Definition DE2_CMD_HDMI_SUPPORT_MODE : Z := 0xc4.

Definition DE1_LAYER_WORK_MODE_NORMAL : Z := 0.
Definition DE1_LAYER_WORK_MODE_SCALER : Z := 4.
Definition DE1_FB_MODE_SCREEN0 : Z := 0.

(** From the system headers: <linux/fb.h>, <fcntl.h>, <errno.h>. *)
Definition FBIOGET_VSCREENINFO : Z := 0x4600.
Definition FBIOPUT_VSCREENINFO : Z := 0x4601.
Definition FBIOGET_FSCREENINFO : Z := 0x4602.
Definition O_RDONLY : Z := 0.
Definition O_RDWR : Z := 2.
Definition ENOTTY : Z := 25.

(** ** Structures passed to the drivers *)

Record de1_fb_create_para_t := {
  fb_mode : Z;
  mode : Z;
  buffer_num : Z;
  width : Z;
  height : Z;
  output_width : Z;
  output_height : Z;
  primary_screen_id : Z;
  aux_output_width : Z;
  aux_output_height : Z;
  line_length : Z;
  smem_len : Z;
  ch1_offset : Z;
  ch2_offset : Z
}.

Record de2_output := { out_type : Z; out_mode : Z }.

(** [struct fb_bitfield]; the fields carry a prefix, [length] and [offset]
    being taken. *)
Record fb_bitfield := { bf_offset : Z; bf_length : Z; bf_msb_right : Z }.

(** The fields of [struct fb_var_screeninfo] the program reads or writes;
    [vi_rest] stands for all the others, which it passes through. *)
Record fb_var_screeninfo := {
  xres : Z;
  yres : Z;
  xres_virtual : Z;
  yres_virtual : Z;
  bits_per_pixel : Z;
  red : fb_bitfield;
  green : fb_bitfield;
  blue : fb_bitfield;
  transp : fb_bitfield;
  vi_rest : list Z
}.

Definition set_bitfield (b : fb_bitfield) (off len : Z) : fb_bitfield :=
  {| bf_offset := off; bf_length := len; bf_msb_right := bf_msb_right b |}.

(** ** System calls, replies and the world *)

(** What an ioctl argument points to when the call is made. *)
Inductive ioctl_arg :=
| ArgWords (a0 a1 a2 a3 : Z)                       (* unsigned long args[4] *)
| ArgFbPara (fb_id : Z) (para : de1_fb_create_para_t) (* {fb_id, &para, 0, 0} *)
| ArgOutput (screen : Z) (output : de2_output)     (* {screen, &output, 0, 0} *)
| ArgVarInfoOut                                    (* &vinfo, not yet filled *)
| ArgVarInfo (vinfo : fb_var_screeninfo)           (* &vinfo *)
| ArgFixInfoOut.                                   (* &finfo, not yet filled *)

Inductive syscall :=
| SysOpen (path : string) (flags : Z)
| SysClose (fd : Z)
| SysIoctl (fd : Z) (cmd : Z) (arg : ioctl_arg)
| SysReadFile (path : string).   (* fopen(path, "r") and the reads up to fclose *)

(** The outcome of a call: its return value, [errno] afterwards, and the
    contents afterwards of the memory the call may fill: the pointed
    [de2_output], the pointed [fb_var_screeninfo], the text of the file
    ([None] when fopen fails). *)
Record reply := {
  r_ret : Z;
  r_errno : Z;
  r_output : de2_output;
  r_vinfo : fb_var_screeninfo;
  r_text : option string
}.

Definition event : Type := syscall * reply.

(** The kernel and the file system: the reply to a call, given the
    calls made before it. *)
Definition oracle : Type := list event -> syscall -> reply.

Record world := {
  g_de_version : de_version_t;
  g_disp_fd : Z;
  g_fb_fd : Z;
  g_screen : Z;
  g_verbose : Z;
  g_force : Z;
  errno : Z;
  trace : list event
}.

(** The globals as the program starts. *)
Definition initial_world : world :=
  {| g_de_version := DE_VERSION_UNKNOWN; g_disp_fd := -1; g_fb_fd := -1;
     g_screen := 0; g_verbose := 0; g_force := 0; errno := 0; trace := [] |}.

Definition set_de_version (v : de_version_t) (w : world) : world :=
  {| g_de_version := v; g_disp_fd := g_disp_fd w; g_fb_fd := g_fb_fd w;
     g_screen := g_screen w; g_verbose := g_verbose w; g_force := g_force w;
     errno := errno w; trace := trace w |}.

Definition set_disp_fd (fd : Z) (w : world) : world :=
  {| g_de_version := g_de_version w; g_disp_fd := fd; g_fb_fd := g_fb_fd w;
     g_screen := g_screen w; g_verbose := g_verbose w; g_force := g_force w;
     errno := errno w; trace := trace w |}.

Definition set_fb_fd (fd : Z) (w : world) : world :=
  {| g_de_version := g_de_version w; g_disp_fd := g_disp_fd w; g_fb_fd := fd;
     g_screen := g_screen w; g_verbose := g_verbose w; g_force := g_force w;
     errno := errno w; trace := trace w |}.

Definition set_screen (s : Z) (w : world) : world :=
  {| g_de_version := g_de_version w; g_disp_fd := g_disp_fd w; g_fb_fd := g_fb_fd w;
     g_screen := s; g_verbose := g_verbose w; g_force := g_force w;
     errno := errno w; trace := trace w |}.

Definition set_verbose (v : Z) (w : world) : world :=
  {| g_de_version := g_de_version w; g_disp_fd := g_disp_fd w; g_fb_fd := g_fb_fd w;
     g_screen := g_screen w; g_verbose := v; g_force := g_force w;
     errno := errno w; trace := trace w |}.

Definition set_force (f : Z) (w : world) : world :=
  {| g_de_version := g_de_version w; g_disp_fd := g_disp_fd w; g_fb_fd := g_fb_fd w;
     g_screen := g_screen w; g_verbose := g_verbose w; g_force := f;
     errno := errno w; trace := trace w |}.

Definition record_call (c : syscall) (r : reply) (w : world) : world :=
  {| g_de_version := g_de_version w; g_disp_fd := g_disp_fd w; g_fb_fd := g_fb_fd w;
     g_screen := g_screen w; g_verbose := g_verbose w; g_force := g_force w;
     errno := r_errno r; trace := trace w ++ [(c, r)] |}.

(** ** The state monad of the program *)

Definition M (A : Type) : Type := world -> A * world.

Definition ret {A} (a : A) : M A := fun w => (a, w).

Definition bind {A B} (m : M A) (k : A -> M B) : M B :=
  fun w => let (a, w1) := m w in k a w1.

Definition gets {A} (f : world -> A) : M A := fun w => (f w, w).

Definition modify (f : world -> world) : M unit := fun w => (tt, f w).

Declare Scope prog_scope.
Delimit Scope prog_scope with prog.
Notation "x <- c1 ;; c2" := (bind c1 (fun x => c2))
  (at level 61, c1 at next level, right associativity) : prog_scope.
Notation "' pat <- c1 ;; c2" := (bind c1 (fun x => match x with pat => c2 end))
  (at level 61, pat pattern, c1 at next level, right associativity) : prog_scope.
Notation "c1 ;; c2" := (bind c1 (fun _ => c2))
  (at level 61, right associativity) : prog_scope.
Open Scope prog_scope.

(** ** The program *)

Section Program.

(** The environment the process runs in. *)
Variable env : oracle.

(** One system call: the oracle answers from the history, the call is
    appended to the trace and [errno] takes the value the reply gives. *)
Definition sys (c : syscall) : M reply :=
  fun w => let r := env (trace w) c in (r, record_call c r w).

Definition ioctl (fd cmd : Z) (arg : ioctl_arg) : M reply :=
  sys (SysIoctl fd cmd arg).

(** *** Display engine version detection *)

(** The buffers successive [fgets(line, 256, f)] calls return on the text
    [s]: a line ends after its newline or after 255 characters.  [acc] is
    the part of the current buffer already read, [room] what it can still
    take. *)
Fixpoint fgets_seq (s : string) (acc : string) (room : nat) : list string :=
  match s with
  | EmptyString => match acc with EmptyString => [] | _ => [acc] end
  | String c r =>
      let acc' := (acc ++ String c EmptyString)%string in
      if Ascii.eqb c "010" then acc' :: fgets_seq r EmptyString 255
      else match room with
           | S (S room') => fgets_seq r acc' (S room')
           | _ => acc' :: fgets_seq r EmptyString 255
           end
  end.

(** [strstr(hay, needle) != NULL]. *)
Fixpoint strstr (hay needle : string) : bool :=
  if String.prefix needle hay then true
  else match hay with
       | EmptyString => false
       | String _ r => strstr r needle
       end.

(** The body of the [while (fgets(...))] loop of [detect_soc_from_cpuinfo]
    over the lines still to be read. *)
Fixpoint scan_cpuinfo (lines : list string) : de_version_t :=
  match lines with
  | [] => DE_VERSION_UNKNOWN
  | line :: rest =>
      if strstr line "Hardware" then
        if strstr line "sun7i" || strstr line "A20" ||
           strstr line "sun4i" || strstr line "A10"
        then DE_VERSION_1
        else if strstr line "sun8i" || strstr line "H3" ||
                strstr line "H5" || strstr line "sun50i" ||
                strstr line "A64"
        then DE_VERSION_2
        else DE_VERSION_UNKNOWN
      else scan_cpuinfo rest
  end.

Definition detect_soc_from_cpuinfo : M de_version_t :=
  f <- sys (SysReadFile CPUINFO) ;;
  match r_text f with
  | None => ret DE_VERSION_UNKNOWN
  | Some text => ret (scan_cpuinfo (fgets_seq text EmptyString 255))
  end.

Definition detect_by_ioctl_probe (fd : Z) : M de_version_t :=
  r <- ioctl fd DE1_CMD_HDMI_GET_HPD (ArgWords 0 0 0 0) ;;
  e <- gets errno ;;
  if (0 <=? r_ret r) || negb (e =? ENOTTY) then ret DE_VERSION_1
  else
    r2 <- ioctl fd DE2_CMD_HDMI_SUPPORT_MODE
                (ArgWords 0 (to_u32 DISP_TV_MOD_720P_60HZ) 0 0) ;;
    e2 <- gets errno ;;
    if (0 <=? r_ret r2) || negb (e2 =? ENOTTY) then ret DE_VERSION_2
    else ret DE_VERSION_UNKNOWN.

Definition detect_de_version (fd : Z) : M de_version_t :=
  ver <- detect_soc_from_cpuinfo ;;
  if negb (de_version_eqb ver DE_VERSION_UNKNOWN) then ret ver
  else
    ver2 <- detect_by_ioctl_probe fd ;;
    if negb (de_version_eqb ver2 DE_VERSION_UNKNOWN) then ret ver2
    else ret DE_VERSION_1.

(** *** Device open/close *)

Definition disp_open : M Z :=
  fd0 <- gets g_disp_fd ;;
  if 0 <=? fd0 then ret 0
  else
    r <- sys (SysOpen DISP_DEV O_RDWR) ;;
    modify (set_disp_fd (r_ret r)) ;;
    if r_ret r <? 0 then ret (-1)
    else
      v <- detect_de_version (r_ret r) ;;
      modify (set_de_version v) ;;
      ret 0.

Definition disp_close : M unit :=
  fd <- gets g_disp_fd ;;
  if 0 <=? fd then
    sys (SysClose fd) ;;
    modify (set_disp_fd (-1))
  else ret tt.

(** *** Low-level ioctl wrapper *)

(** The reply of [disp_ioctl] when the device is not open: -1, and nothing
    is written through the argument. *)
Definition not_open_reply (arg : ioctl_arg) (w : world) : reply :=
  {| r_ret := -1; r_errno := errno w;
     r_output := match arg with
                 | ArgOutput _ o => o
                 | _ => {| out_type := 0; out_mode := 0 |}
                 end;
     r_vinfo := {| xres := 0; yres := 0; xres_virtual := 0; yres_virtual := 0;
                   bits_per_pixel := 0;
                   red := {| bf_offset := 0; bf_length := 0; bf_msb_right := 0 |};
                   green := {| bf_offset := 0; bf_length := 0; bf_msb_right := 0 |};
                   blue := {| bf_offset := 0; bf_length := 0; bf_msb_right := 0 |};
                   transp := {| bf_offset := 0; bf_length := 0; bf_msb_right := 0 |};
                   vi_rest := [] |};
     r_text := None |}.

Definition disp_ioctl (cmd : Z) (args : ioctl_arg) : M reply :=
  fd <- gets g_disp_fd ;;
  if fd <? 0 then gets (not_open_reply args)
  else ioctl fd cmd args.

(** *** DE1 (A20) implementation *)

(** [width], [height]: the prior contents of the pointed variables; the
    result carries their contents afterwards. *)
Definition de1_get_screen_size (width height : Z) : M (Z * (Z * Z)) :=
  scr <- gets g_screen ;;
  r <- disp_ioctl DE1_CMD_SCN_GET_WIDTH (ArgWords scr 0 0 0) ;;
  if r_ret r <? 0 then ret (-1, (width, height))
  else
    let width := to_u32 (r_ret r) in
    scr <- gets g_screen ;;
    r <- disp_ioctl DE1_CMD_SCN_GET_HEIGHT (ArgWords scr 0 0 0) ;;
    if r_ret r <? 0 then ret (-1, (width, height))
    else
      let height := to_u32 (r_ret r) in
      ret (0, (width, height)).

Definition de1_get_output_type : M Z :=
  scr <- gets g_screen ;;
  r <- disp_ioctl DE1_CMD_GET_OUTPUT_TYPE (ArgWords scr 0 0 0) ;;
  ret (r_ret r).

Definition de1_hdmi_get_hpd : M Z :=
  scr <- gets g_screen ;;
  r <- disp_ioctl DE1_CMD_HDMI_GET_HPD (ArgWords scr 0 0 0) ;;
  ret (r_ret r).

Definition de1_hdmi_mode_supported (mode : disp_tv_mode) : M Z :=
  scr <- gets g_screen ;;
  r <- disp_ioctl DE1_CMD_HDMI_SUPPORT_MODE (ArgWords scr (to_u32 mode) 0 0) ;;
  ret (if 0 <? r_ret r then 1 else 0).

Definition de1_hdmi_get_mode : M disp_tv_mode :=
  scr <- gets g_screen ;;
  r <- disp_ioctl DE1_CMD_HDMI_GET_MODE (ArgWords scr 0 0 0) ;;
  ret (if r_ret r <? 0 then -1 else r_ret r).

Definition de1_hdmi_off : M Z :=
  scr <- gets g_screen ;;
  r <- disp_ioctl DE1_CMD_HDMI_OFF (ArgWords scr 0 0 0) ;;
  ret (r_ret r).

Definition de1_hdmi_on : M Z :=
  scr <- gets g_screen ;;
  r <- disp_ioctl DE1_CMD_HDMI_ON (ArgWords scr 0 0 0) ;;
  ret (r_ret r).

Definition de1_hdmi_set_mode (mode : disp_tv_mode) : M Z :=
  scr <- gets g_screen ;;
  r <- disp_ioctl DE1_CMD_HDMI_SET_MODE (ArgWords scr (to_u32 mode) 0 0) ;;
  ret (r_ret r).

Definition de1_hdmi_init (mode : disp_tv_mode) : M Z :=
  force <- gets g_force ;;
  unsupported <- (if force =? 0
                  then (s <- de1_hdmi_mode_supported mode ;; ret (s =? 0))
                  else ret false) ;;
  if unsupported then ret (-1)
  else
    de1_hdmi_off ;;
    r <- de1_hdmi_set_mode mode ;;
    if r <? 0 then ret (-1)
    else de1_hdmi_on.

Definition de1_fb_release (fb_id : Z) : M Z :=
  r <- disp_ioctl DE1_CMD_FB_RELEASE (ArgWords fb_id 0 0 0) ;;
  ret (r_ret r).

Definition de1_fb_request (fb_id : Z) (para : de1_fb_create_para_t) : M Z :=
  r <- disp_ioctl DE1_CMD_FB_REQUEST (ArgFbPara fb_id para) ;;
  ret (r_ret r).

Definition de1_setup_fb_with_scaling (fb_id fb_w fb_h scn_w scn_h depth : Z) : M Z :=
  let needs_scaling := negb (fb_w =? scn_w) || negb (fb_h =? scn_h) in
  de1_fb_release fb_id ;;
  scr <- gets g_screen ;;
  let para :=
    {| fb_mode := DE1_FB_MODE_SCREEN0;
       mode := if needs_scaling then DE1_LAYER_WORK_MODE_SCALER
               else DE1_LAYER_WORK_MODE_NORMAL;
       buffer_num := 1;
       width := fb_w;
       height := fb_h;
       output_width := scn_w;
       output_height := scn_h;
       primary_screen_id := scr;
       aux_output_width := 0;
       aux_output_height := 0;
       line_length := 0;
       smem_len := 0;
       ch1_offset := 0;
       ch2_offset := 0 |} in
  r <- de1_fb_request fb_id para ;;
  if r <? 0 then ret (-1)
  else ret 0.

(** *** DE2 (H3) implementation *)

Definition de2_get_screen_size (width height : Z) : M (Z * (Z * Z)) :=
  scr <- gets g_screen ;;
  r <- disp_ioctl DE2_CMD_GET_SCN_WIDTH (ArgWords scr 0 0 0) ;;
  if r_ret r <? 0 then ret (-1, (width, height))
  else
    let width := to_u32 (r_ret r) in
    scr <- gets g_screen ;;
    r <- disp_ioctl DE2_CMD_GET_SCN_HEIGHT (ArgWords scr 0 0 0) ;;
    if r_ret r <? 0 then ret (-1, (width, height))
    else
      let height := to_u32 (r_ret r) in
      ret (0, (width, height)).

Definition de2_get_output_type : M Z :=
  scr <- gets g_screen ;;
  r <- disp_ioctl DE2_CMD_GET_OUTPUT_TYPE (ArgWords scr 0 0 0) ;;
  ret (r_ret r).

Definition de2_hdmi_mode_supported (mode : disp_tv_mode) : M Z :=
  scr <- gets g_screen ;;
  r <- disp_ioctl DE2_CMD_HDMI_SUPPORT_MODE (ArgWords scr (to_u32 mode) 0 0) ;;
  ret (if 0 <? r_ret r then 1 else 0).

(** The sysfs read shared by [de2_hdmi_get_hpd] and [hdmi_get_hpd]: the
    state when the file opens and holds a number. *)
Definition read_hdmi_state : M (option Z) :=
  f <- sys (SysReadFile HDMI_STATE) ;;
  match r_text f with
  | Some text => ret (fscanf_d text)
  | None => ret None
  end.

Definition de2_hdmi_get_hpd : M Z :=
  st <- read_hdmi_state ;;
  match st with
  | Some state => ret state
  | None => ret (-1)
  end.

Definition de2_hdmi_get_mode : M disp_tv_mode :=
  scr <- gets g_screen ;;
  r <- disp_ioctl DE2_CMD_GET_OUTPUT
                  (ArgOutput scr {| out_type := 0; out_mode := 0 |}) ;;
  if r_ret r <? 0 then ret (-1)
  else ret (to_s32 (out_mode (r_output r))).

Definition de2_device_switch (type : Z) (mode : disp_tv_mode) : M Z :=
  scr <- gets g_screen ;;
  r <- disp_ioctl DE2_CMD_DEVICE_SWITCH (ArgWords scr (to_u32 type) (to_u32 mode) 0) ;;
  ret (r_ret r).

Definition de2_hdmi_init (mode : disp_tv_mode) : M Z :=
  force <- gets g_force ;;
  unsupported <- (if force =? 0
                  then (s <- de2_hdmi_mode_supported mode ;; ret (s =? 0))
                  else ret false) ;;
  if unsupported then ret (-1)
  else de2_device_switch DISP_OUTPUT_TYPE_HDMI mode.

Definition de2_hdmi_off : M Z :=
  de2_device_switch DISP_OUTPUT_TYPE_NONE 0.

(** The colour layout both framebuffer paths program for [depth]. *)
Definition set_color_format (depth : Z) (v : fb_var_screeninfo) : fb_var_screeninfo :=
  if depth =? 16 then
    {| xres := xres v; yres := yres v; xres_virtual := xres_virtual v;
       yres_virtual := yres_virtual v; bits_per_pixel := bits_per_pixel v;
       red := set_bitfield (red v) 11 5;
       green := set_bitfield (green v) 5 6;
       blue := set_bitfield (blue v) 0 5;
       transp := set_bitfield (transp v) 0 0;
       vi_rest := vi_rest v |}
  else if (depth =? 24) || (depth =? 32) then
    {| xres := xres v; yres := yres v; xres_virtual := xres_virtual v;
       yres_virtual := yres_virtual v; bits_per_pixel := bits_per_pixel v;
       red := set_bitfield (red v) 16 8;
       green := set_bitfield (green v) 8 8;
       blue := set_bitfield (blue v) 0 8;
       transp := set_bitfield (transp v)
                   (if depth =? 32 then 24 else 0)
                   (if depth =? 32 then 8 else 0);
       vi_rest := vi_rest v |}
  else v.

(** The geometry fields: resolution, virtual resolution and depth. *)
Definition set_geometry (w h vw vh depth : Z) (v : fb_var_screeninfo) : fb_var_screeninfo :=
  {| xres := w; yres := h; xres_virtual := vw; yres_virtual := vh;
     bits_per_pixel := to_u32 depth;
     red := red v; green := green v; blue := blue v; transp := transp v;
     vi_rest := vi_rest v |}.

Definition de2_setup_fb_with_scaling (fb_id fb_w fb_h scn_w scn_h depth : Z) : M Z :=
  o <- sys (SysOpen FB_DEV O_RDWR) ;;
  let fd := r_ret o in
  if fd <? 0 then ret (-1)
  else
    g <- ioctl fd FBIOGET_VSCREENINFO ArgVarInfoOut ;;
    if r_ret g <? 0 then
      sys (SysClose fd) ;;
      ret (-1)
    else
      let vinfo := r_vinfo g in
      if negb (xres vinfo =? fb_w) || negb (yres vinfo =? fb_h) ||
         negb (bits_per_pixel vinfo =? to_u32 depth)
      then
        let vinfo := set_geometry fb_w fb_h fb_w (to_u32 (fb_h * 2)) depth vinfo in
        let vinfo := set_color_format depth vinfo in
        p <- ioctl fd FBIOPUT_VSCREENINFO (ArgVarInfo vinfo) ;;
        if r_ret p <? 0 then
          sys (SysClose fd) ;;
          ret (-1)
        else
          sys (SysClose fd) ;;
          ret 0
      else
        sys (SysClose fd) ;;
        ret 0.

(** *** Unified API (dispatches to DE1 or DE2) *)

Definition get_screen_size (width height : Z) : M (Z * (Z * Z)) :=
  v <- gets g_de_version ;;
  match v with
  | DE_VERSION_1 => de1_get_screen_size width height
  | DE_VERSION_2 => de2_get_screen_size width height
  | DE_VERSION_UNKNOWN => ret (-1, (width, height))
  end.

Definition get_output_type : M Z :=
  v <- gets g_de_version ;;
  match v with
  | DE_VERSION_1 => de1_get_output_type
  | DE_VERSION_2 => de2_get_output_type
  | DE_VERSION_UNKNOWN => ret (-1)
  end.

Definition hdmi_get_hpd : M Z :=
  st <- read_hdmi_state ;;
  match st with
  | Some state => ret state
  | None =>
      v <- gets g_de_version ;;
      match v with
      | DE_VERSION_1 => de1_hdmi_get_hpd
      | DE_VERSION_2 => de2_hdmi_get_hpd
      | DE_VERSION_UNKNOWN => ret (-1)
      end
  end.

Definition hdmi_mode_supported (mode : disp_tv_mode) : M Z :=
  v <- gets g_de_version ;;
  match v with
  | DE_VERSION_1 => de1_hdmi_mode_supported mode
  | DE_VERSION_2 => de2_hdmi_mode_supported mode
  | DE_VERSION_UNKNOWN => ret 0
  end.

Definition hdmi_get_mode : M disp_tv_mode :=
  v <- gets g_de_version ;;
  match v with
  | DE_VERSION_1 => de1_hdmi_get_mode
  | DE_VERSION_2 => de2_hdmi_get_mode
  | DE_VERSION_UNKNOWN => ret (-1)
  end.

Definition hdmi_init (mode : disp_tv_mode) : M Z :=
  v <- gets g_de_version ;;
  match v with
  | DE_VERSION_1 => de1_hdmi_init mode
  | DE_VERSION_2 => de2_hdmi_init mode
  | DE_VERSION_UNKNOWN => ret (-1)
  end.

Definition hdmi_on : M Z :=
  v <- gets g_de_version ;;
  match v with
  | DE_VERSION_1 =>
      r <- de1_hdmi_on ;;
      if r <? 0 then
        saved_force <- gets g_force ;;
        modify (set_force 1) ;;
        r <- de1_hdmi_init DEFAULT_HDMI_MODE ;;
        modify (set_force saved_force) ;;
        ret r
      else ret r
  | DE_VERSION_2 =>
      mode <- hdmi_get_mode ;;
      let mode :=
        if (mode <=? 0) || (mode =? DISP_TV_MOD_480I) || (mode =? DISP_TV_MOD_576I)
        then DEFAULT_HDMI_MODE else mode in
      saved_force <- gets g_force ;;
      modify (set_force 1) ;;
      r <- de2_hdmi_init mode ;;
      modify (set_force saved_force) ;;
      ret r
  | DE_VERSION_UNKNOWN => ret (-1)
  end.

Definition hdmi_off : M Z :=
  v <- gets g_de_version ;;
  match v with
  | DE_VERSION_1 => de1_hdmi_off
  | DE_VERSION_2 => de2_hdmi_off
  | DE_VERSION_UNKNOWN => ret (-1)
  end.

Definition setup_fb_with_scaling (fb_id fb_w fb_h scn_w scn_h depth : Z) : M Z :=
  v <- gets g_de_version ;;
  match v with
  | DE_VERSION_1 => de1_setup_fb_with_scaling fb_id fb_w fb_h scn_w scn_h depth
  | DE_VERSION_2 => de2_setup_fb_with_scaling fb_id fb_w fb_h scn_w scn_h depth
  | DE_VERSION_UNKNOWN => ret (-1)
  end.

(** *** Framebuffer configuration via fbdev *)

Definition close_fb_fd : M unit :=
  fd <- gets g_fb_fd ;;
  sys (SysClose fd) ;;
  modify (set_fb_fd (-1)).

Definition fb_configure (width height depth : Z) : M Z :=
  o <- sys (SysOpen FB_DEV O_RDWR) ;;
  modify (set_fb_fd (r_ret o)) ;;
  fd <- gets g_fb_fd ;;
  if fd <? 0 then ret (-1)
  else
    g <- ioctl fd FBIOGET_VSCREENINFO ArgVarInfoOut ;;
    if r_ret g <? 0 then
      close_fb_fd ;;
      ret (-1)
    else
      let vinfo := set_geometry width height width height depth (r_vinfo g) in
      let vinfo := set_color_format depth vinfo in
      p <- ioctl fd FBIOPUT_VSCREENINFO (ArgVarInfo vinfo) ;;
      if r_ret p <? 0 then
        close_fb_fd ;;
        ret (-1)
      else
        f <- ioctl fd FBIOGET_FSCREENINFO ArgFixInfoOut ;;
        if r_ret f <? 0 then
          close_fb_fd ;;
          ret (-1)
        else ret 0.

(** [vinfo] is never NULL at the call sites; [vinfo0] is the prior content
    of the caller's variable and [want_finfo] tells whether [finfo] is
    non-NULL.  The result carries the content of [*vinfo] afterwards. *)
Definition get_fb_info (vinfo0 : fb_var_screeninfo) (want_finfo : bool)
  : M (Z * fb_var_screeninfo) :=
  o <- sys (SysOpen FB_DEV O_RDONLY) ;;
  let fd := r_ret o in
  if fd <? 0 then ret (-1, vinfo0)
  else
    g <- ioctl fd FBIOGET_VSCREENINFO ArgVarInfoOut ;;
    if r_ret g <? 0 then
      sys (SysClose fd) ;;
      ret (-1, r_vinfo g)
    else
      failed <- (if want_finfo
                 then (f <- ioctl fd FBIOGET_FSCREENINFO ArgFixInfoOut ;;
                       ret (r_ret f <? 0))
                 else ret false) ;;
      if failed then
        sys (SysClose fd) ;;
        ret (-1, r_vinfo g)
      else
        sys (SysClose fd) ;;
        ret (0, r_vinfo g).

(** *** Information display *)

(** The value a local variable holds before anything is stored in it; the
    program reads such a variable only after a call has filled it. *)
Definition uninit_vinfo : fb_var_screeninfo :=
  {| xres := 0; yres := 0; xres_virtual := 0; yres_virtual := 0;
     bits_per_pixel := 0;
     red := {| bf_offset := 0; bf_length := 0; bf_msb_right := 0 |};
     green := {| bf_offset := 0; bf_length := 0; bf_msb_right := 0 |};
     blue := {| bf_offset := 0; bf_length := 0; bf_msb_right := 0 |};
     transp := {| bf_offset := 0; bf_length := 0; bf_msb_right := 0 |};
     vi_rest := [] |}.

Definition uninit : Z := 0.

(** The loop of [show_info] over the mode table, from the entries [tbl]. *)
Fixpoint show_supported_modes (tbl : list mode_info_t) : M unit :=
  match tbl with
  | [] => ret tt
  | e :: rest =>
      match mi_name e with
      | None => ret tt
      | Some _ =>
          v <- gets g_de_version ;;
          if de_version_eqb v DE_VERSION_1 &&
             (DISP_TV_MOD_3840_2160P_30HZ <=? mi_mode e)
          then show_supported_modes rest
          else
            hdmi_mode_supported (mi_mode e) ;;
            show_supported_modes rest
      end
  end.

Definition show_info : M unit :=
  get_output_type ;;
  hdmi_get_hpd ;;
  hdmi_get_mode ;;
  '(_, (width, height)) <- get_screen_size uninit uninit ;;
  '(r, _) <- get_fb_info uninit_vinfo true ;;
  (if r =? 0 then get_screen_size width height ;; ret tt else ret tt) ;;
  show_supported_modes mode_table.

Definition show_debug_info : M unit := ret tt.

(** *** Main *)

(** [argv[i]] within the arguments that follow the command word. *)
Definition arg (rest : list string) (i : nat) : string := nth i rest EmptyString.

Definition starts_with_dash (s : string) : bool :=
  match s with
  | String "-" _ => true
  | _ => false
  end.

Definition bad_depth (depth : Z) : bool :=
  negb (depth =? 16) && negb (depth =? 24) && negb (depth =? 32).

(** How the option loop ends: with an early [return], or at the first
    argument that is not an option. *)
Inductive options_end :=
| OptReturn (code : Z)
| OptCommand (args : list string).

(** The loop [while (arg_start < argc && argv[arg_start][0] == '-')] over
    the arguments from [arg_start] on. *)
Fixpoint parse_options (args : list string) : M options_end :=
  match args with
  | [] => ret (OptCommand [])
  | a :: rest =>
      if starts_with_dash a then
        if String.eqb a "-v" then
          modify (set_verbose 1) ;;
          parse_options rest
        else if String.eqb a "-f" then
          modify (set_force 1) ;;
          parse_options rest
        else
          match String.eqb a "-s", rest with
          | true, s :: rest' =>
              modify (set_screen (to_u32 (atoi s))) ;;
              scr <- gets g_screen ;;
              if 1 <? scr then ret (OptReturn 1)
              else parse_options rest'
          | _, _ =>
              if String.eqb a "-h" || String.eqb a "--help"
              then ret (OptReturn 0)
              else ret (OptReturn 1)
          end
      else ret (OptCommand args)
  end.

(** The branch [hdmi mode <name|num>]. *)
Definition main_hdmi_mode (mode_arg : string) : M Z :=
  let '(mode_num, endptr) := strtol mode_arg in
  let at_nul := match endptr with EmptyString => true | _ => false end in
  '(r, info) <-
    (if at_nul && (0 <=? mode_num) && (mode_num <? DISP_TV_MODE_NUM) then
       match get_mode_info mode_num with
       | None => r <- hdmi_init mode_num ;; ret (r, None)
       | Some i => ret (0, Some i)
       end
     else ret (0, find_mode_by_name mode_arg)) ;;
  match info with
  | Some i => hdmi_init (mi_mode (mode_at i))
  | None => if negb at_nul then ret 1 else ret r
  end.

(** The branch [hdmi init <W>x<H>[@Hz]]. *)
Definition main_hdmi_init (res_arg : string) : M Z :=
  let '(p, (width, height, refresh)) := parse_resolution res_arg uninit uninit in
  if p =? 0 then
    match find_mode_by_resolution width height refresh with
    | Some i => hdmi_init (mi_mode (mode_at i))
    | None => ret 1
    end
  else ret 1.

(** The [hdmi] commands; [rest] holds at least the sub-command. *)
Definition main_hdmi (rest : list string) : M Z :=
  if String.eqb (arg rest 0) "on" then
    r <- hdmi_on ;;
    if r =? 0 then hdmi_get_mode ;; ret r
    else ret r
  else if String.eqb (arg rest 0) "off" then hdmi_off
  else if String.eqb (arg rest 0) "mode" && (2 <=? List.length rest)%nat then
    main_hdmi_mode (arg rest 1)
  else if String.eqb (arg rest 0) "init" && (2 <=? List.length rest)%nat then
    main_hdmi_init (arg rest 1)
  else ret 1.

(** The [fb] commands; [rest] holds at least two arguments. *)
Definition main_fb (rest : list string) : M Z :=
  if String.eqb (arg rest 0) "set" then
    let '(p, (width, height, depth)) :=
      parse_resolution_depth (arg rest 1) uninit uninit uninit in
    if p =? 0 then fb_configure width height depth
    else ret 1
  else ret 1.

(** The [scale] command; [rest] holds at least three arguments. *)
Definition main_scale (rest : list string) : M Z :=
  let '(p1, (fb_width, fb_height, _)) := parse_resolution (arg rest 0) uninit uninit in
  if p1 =? 0 then
    let '(p2, (scn_width, scn_height, _)) := parse_resolution (arg rest 1) uninit uninit in
    if p2 =? 0 then
      let depth := atoi (arg rest 2) in
      if bad_depth depth then ret 1
      else setup_fb_with_scaling 0 fb_width fb_height scn_width scn_height depth
    else ret 1
  else ret 1.

(** The [autoscale] command. *)
Definition main_autoscale (rest : list string) : M Z :=
  '(g, vinfo) <- get_fb_info uninit_vinfo false ;;
  if g <? 0 then ret 1
  else
    '(s, (scn_width, scn_height)) <- get_screen_size uninit uninit ;;
    if s <? 0 then ret 1
    else
      let depth :=
        if (1 <=? List.length rest)%nat then atoi (arg rest 0)
        else to_s32 (bits_per_pixel vinfo) in
      if (1 <=? List.length rest)%nat && bad_depth depth then ret 1
      else if (xres vinfo =? scn_width) && (yres vinfo =? scn_height) then ret 0
      else
        v <- gets g_de_version ;;
        if de_version_eqb v DE_VERSION_2 then ret 0
        else setup_fb_with_scaling 0 (xres vinfo) (yres vinfo)
                                   scn_width scn_height depth.

(** The [noscale] command. *)
Definition main_noscale (rest : list string) : M Z :=
  '(s, (scn_width, scn_height)) <- get_screen_size uninit uninit ;;
  if s <? 0 then ret 1
  else
    if (1 <=? List.length rest)%nat then
      let depth := atoi (arg rest 0) in
      if bad_depth depth then ret 1
      else setup_fb_with_scaling 0 scn_width scn_height scn_width scn_height depth
    else
      '(g, vinfo) <- get_fb_info uninit_vinfo false ;;
      let depth := if g =? 0 then to_s32 (bits_per_pixel vinfo) else 32 in
      setup_fb_with_scaling 0 scn_width scn_height scn_width scn_height depth.

(** The chain of command tests of [main], up to the label [done]: the
    value of [ret] there.  [cmd] is [argv[arg_start]] and [rest] the
    arguments after it. *)
Definition main_command (cmd : string) (rest : list string) : M Z :=
  if String.eqb cmd "info" then show_info ;; ret 0
  else if String.eqb cmd "debug" then show_debug_info ;; ret 0
  else if String.eqb cmd "hdmi" && (1 <=? List.length rest)%nat then main_hdmi rest
  else if String.eqb cmd "fb" && (2 <=? List.length rest)%nat then main_fb rest
  else if String.eqb cmd "scale" && (3 <=? List.length rest)%nat then main_scale rest
  else if String.eqb cmd "autoscale" then main_autoscale rest
  else if String.eqb cmd "noscale" then main_noscale rest
  else ret 1.

Definition main (argv : list string) : M Z :=
  match argv with
  | [] => ret 1
  | [_] => ret 1
  | _ :: args =>
      o <- parse_options args ;;
      match o with
      | OptReturn code => ret code
      | OptCommand [] => ret 1
      | OptCommand (cmd :: rest) =>
          d <- disp_open ;;
          if d <? 0 then ret 1
          else
            r <- main_command cmd rest ;;
            fb <- gets g_fb_fd ;;
            (if 0 <=? fb then sys (SysClose fb) ;; ret tt else ret tt) ;;
            disp_close ;;
            ret r
      end
  end.

End Program.


(** ** Auxiliary notions for the statements *)

(** Lower-casing a whole string. *)
Fixpoint lower (s : string) : string :=
  match s with
  | EmptyString => EmptyString
  | String c r => String (tolower c) (lower r)
  end.

(** A C string holds no NUL character. *)
Fixpoint nul_free (s : string) : Prop :=
  match s with
  | EmptyString => True
  | String c r => c <> "000"%char /\ nul_free r
  end.

(** Calls that change the framebuffer set-up: releasing or requesting a
    DE1 framebuffer, writing the fbdev geometry, and opening the
    framebuffer for writing. *)
Definition is_setup_call (c : syscall) : bool :=
  match c with
  | SysIoctl _ cmd _ =>
      (cmd =? DE1_CMD_FB_RELEASE) || (cmd =? DE1_CMD_FB_REQUEST) ||
      (cmd =? FBIOPUT_VSCREENINFO)
  | SysOpen path flags => String.eqb path FB_DEV && (flags =? O_RDWR)
  | _ => false
  end.

(** The write of the framebuffer geometry. *)
Definition is_geometry_write (c : syscall) : bool :=
  match c with
  | SysIoctl _ cmd _ => cmd =? FBIOPUT_VSCREENINFO
  | _ => false
  end.

(** The device calls of the depth scenario: an ioctl on the display or
    the framebuffer, or an open of the framebuffer. *)
Definition is_device_call (c : syscall) : bool :=
  match c with
  | SysIoctl _ _ _ => true
  | SysOpen path _ => String.eqb path FB_DEV
  | _ => false
  end.

(** ** Example environments *)

Definition nl : string := String "010"%char EmptyString.

Definition reply_of (ret : Z) : reply :=
  {| r_ret := ret; r_errno := 0;
     r_output := {| out_type := 0; out_mode := 0 |};
     r_vinfo := uninit_vinfo; r_text := None |}.

Definition reply_error (e : Z) : reply :=
  {| r_ret := -1; r_errno := e;
     r_output := {| out_type := 0; out_mode := 0 |};
     r_vinfo := uninit_vinfo; r_text := None |}.

Definition reply_text (s : string) : reply :=
  {| r_ret := 0; r_errno := 0;
     r_output := {| out_type := 0; out_mode := 0 |};
     r_vinfo := uninit_vinfo; r_text := Some s |}.

Definition reply_vinfo (v : fb_var_screeninfo) : reply :=
  {| r_ret := 0; r_errno := 0;
     r_output := {| out_type := 0; out_mode := 0 |};
     r_vinfo := v; r_text := None |}.

Definition reply_output (o : de2_output) : reply :=
  {| r_ret := 0; r_errno := 0; r_output := o;
     r_vinfo := uninit_vinfo; r_text := None |}.

Definition rgb32 (w h : Z) : fb_var_screeninfo :=
  set_color_format 32 (set_geometry w h w (2 * h) 32 uninit_vinfo).

Definition EINVAL : Z := 22.
Definition ENOENT : Z := 2.

(** An A20 board showing 1280x720 with a 640x480 framebuffer; the driver
    accepts every command. *)
Definition a20_board : oracle := fun _ c =>
  match c with
  | SysOpen path _ => if String.eqb path DISP_DEV then reply_of 3 else reply_of 4
  | SysClose _ => reply_of 0
  | SysReadFile path =>
      if String.eqb path CPUINFO
      then reply_text ("Processor	: ARMv7 Processor rev 4 (v7l)" ++ nl ++
                       "Hardware	: sun7i" ++ nl)%string
      else reply_error ENOENT
  | SysIoctl _ cmd _ =>
      if cmd =? DE1_CMD_SCN_GET_WIDTH then reply_of 1280
      else if cmd =? DE1_CMD_SCN_GET_HEIGHT then reply_of 720
      else if cmd =? DE1_CMD_HDMI_SUPPORT_MODE then reply_of 1
      else if cmd =? FBIOGET_VSCREENINFO then reply_vinfo (rgb32 640 480)
      else reply_of 0
  end.


(** The same board with a driver that rejects every framebuffer request. *)
Definition a20_board_request_refused : oracle := fun h c =>
  match c with
  | SysIoctl _ cmd _ =>
      if cmd =? DE1_CMD_FB_REQUEST then reply_error EINVAL else a20_board h c
  | _ => a20_board h c
  end.

(** An H3 board showing 1280x720 with the framebuffer at 1280x720x32. *)
Definition h3_board : oracle := fun _ c =>
  match c with
  | SysOpen path _ => if String.eqb path DISP_DEV then reply_of 3 else reply_of 4
  | SysClose _ => reply_of 0
  | SysReadFile path =>
      if String.eqb path CPUINFO
      then reply_text ("Hardware	: sun8i" ++ nl)%string
      else if String.eqb path HDMI_STATE then reply_text ("1" ++ nl)%string
      else reply_error ENOENT
  | SysIoctl _ cmd _ =>
      if cmd =? DE2_CMD_GET_SCN_WIDTH then reply_of 1280
      else if cmd =? DE2_CMD_GET_SCN_HEIGHT then reply_of 720
      else if cmd =? DE2_CMD_HDMI_SUPPORT_MODE then reply_of 1
      else if cmd =? DE2_CMD_GET_OUTPUT
           then reply_output {| out_type := 4; out_mode := 5 |}
      else if cmd =? FBIOGET_VSCREENINFO then reply_vinfo (rgb32 1280 720)
      else reply_of 0
  end.

(** A system without a readable cpuinfo whose display driver knows none
    of the probed commands. *)
Definition silent_board : oracle := fun _ c =>
  match c with
  | SysOpen _ _ => reply_of 3
  | SysClose _ => reply_of 0
  | SysReadFile _ => reply_error ENOENT
  | SysIoctl _ _ _ => reply_error ENOTTY
  end.

(** A world in which the display device is open on an A20. *)
Definition a20_open_world : world :=
  {| g_de_version := DE_VERSION_1; g_disp_fd := 3; g_fb_fd := -1;
     g_screen := 0; g_verbose := 0; g_force := 0; errno := 0; trace := [] |}.

Definition h3_open_world : world :=
  {| g_de_version := DE_VERSION_2; g_disp_fd := 3; g_fb_fd := -1;
     g_screen := 0; g_verbose := 0; g_force := 0; errno := 0; trace := [] |}.

(** ** The detection order in the words of the specification *)

Definition gen1_identifiers : list string := ["sun7i"; "A20"; "sun4i"; "A10"].
Definition gen2_identifiers : list string :=
  ["sun8i"; "H3"; "H5"; "sun50i"; "A64"].

Definition names_one_of (ids : list string) (line : string) : bool :=
  existsb (strstr line) ids.

(** The hardware-identity text: the first line read from cpuinfo that
    contains "Hardware". *)
Definition hardware_line (text : option string) : option string :=
  match text with
  | None => None
  | Some t => find (fun l => strstr l "Hardware") (fgets_seq t EmptyString 255)
  end.

(** The generation the identity text names, Gen1 identifiers first. *)
Definition identity_generation (text : option string) : de_version_t :=
  match hardware_line text with
  | None => DE_VERSION_UNKNOWN
  | Some line =>
      if names_one_of gen1_identifiers line then DE_VERSION_1
      else if names_one_of gen2_identifiers line then DE_VERSION_2
      else DE_VERSION_UNKNOWN
  end.

(** The driver answered a probe with anything but "command not
    supported". *)
Definition responds (r : reply) : Prop := 0 <= r_ret r \/ r_errno r <> ENOTTY.

(** ** Exit codes *)

(** The ioctls whose return value an operation hands back unchanged:
    HDMI on, HDMI off and the DE2 device switch. *)
Definition is_output_switch (c : syscall) : bool :=
  match c with
  | SysIoctl _ cmd _ =>
      (cmd =? DE1_CMD_HDMI_ON) || (cmd =? DE1_CMD_HDMI_OFF) ||
      (cmd =? DE2_CMD_DEVICE_SWITCH)
  | _ => false
  end.

(** [r] is what the driver returned for an output-switch ioctl in [new]. *)
Definition driver_value (r : Z) (new : list event) : Prop :=
  Exists (fun e => is_output_switch (fst e) = true /\ r_ret (snd e) = r) new.

(** The result of an HDMI operation: -1, or the driver's own value. *)
Definition op_result (r : Z) (new : list event) : Prop :=
  r = -1 \/ driver_value r new.

(** The values [main] returns. *)
Definition exit_code_ok (r : Z) (new : list event) : Prop :=
  r = 0 \/ r = 1 \/ op_result r new.

(** ** The framebuffer request *)

(** The parameters [de1_setup_fb_with_scaling] hands to the driver. *)
Definition fb_request_para (work_mode fb_w fb_h scn_w scn_h scr : Z)
  : de1_fb_create_para_t :=
  {| fb_mode := DE1_FB_MODE_SCREEN0; mode := work_mode; buffer_num := 1;
     width := fb_w; height := fb_h;
     output_width := scn_w; output_height := scn_h;
     primary_screen_id := scr;
     aux_output_width := 0; aux_output_height := 0;
     line_length := 0; smem_len := 0; ch1_offset := 0; ch2_offset := 0 |}.

(** ** Notions for reasoning about runs *)

(** [runs m Q]: from any world, [m] only appends to the trace, and its
    result together with the calls it appended satisfy [Q]. *)
Definition runs {A} (m : M A) (Q : A -> list event -> Prop) : Prop :=
  forall w, exists new,
    trace (snd (m w)) = trace w ++ new /\ Q (fst (m w)) new.

(** Every call in [new] is one that [ok] allows. *)
Definition only (ok : syscall -> bool) (new : list event) : Prop :=
  Forall (fun e => ok (fst e) = true) new.

(** A computation all of whose calls [ok] allows, whatever it returns. *)
Definition confined {A} (ok : syscall -> bool) (m : M A) : Prop :=
  runs m (fun _ new => only ok new).

(** The calls that leave the framebuffer set-up alone, and all calls. *)
Definition not_setup (c : syscall) : bool := negb (is_setup_call c).




(** A computation that leaves the display descriptor as it found it. *)
Definition keeps_disp_fd {A} (m : M A) : Prop :=
  forall w, g_disp_fd (snd (m w)) = g_disp_fd w.

(** ** Further notions for the statements *)

(** The number of entries of the mode table before the sentinel. *)
Definition mode_count : nat := 16.

(** A computation that leaves the observation [f] of the world as it
    found it. *)
Definition preserves {A B} (f : world -> B) (m : M A) : Prop :=
  forall w, f (snd (m w)) = f w.

(** The calls [new] open a descriptor with [c_open], use only ioctls on
    it, and end by closing it. *)
Definition bracketed (c_open : syscall) (new : list event) : Prop :=
  exists r_open mid r_close,
    new = (c_open, r_open) :: mid ++ [(SysClose (r_ret r_open), r_close)] /\
    Forall (fun e => exists cmd a, fst e = SysIoctl (r_ret r_open) cmd a) mid.

(** Every geometry write among [new] carries a structure satisfying [P]. *)
Definition geometry_writes (P : fb_var_screeninfo -> Prop) (new : list event) : Prop :=
  forall fd v r, In (SysIoctl fd FBIOPUT_VSCREENINFO (ArgVarInfo v), r) new -> P v.

(** The colour channels lie packed from bit 0 upwards in the order blue,
    green, red, transparency and fill [bits] bits. *)
Definition packed_bgra (bits : Z) (v : fb_var_screeninfo) : Prop :=
  bf_offset (blue v) = 0 /\
  bf_offset (green v) = bf_length (blue v) /\
  bf_offset (red v) = bf_offset (green v) + bf_length (green v) /\
  (0 < bf_length (transp v) ->
   bf_offset (transp v) = bf_offset (red v) + bf_length (red v)) /\
  bf_length (blue v) + bf_length (green v) + bf_length (red v)
    + bf_length (transp v) = bits.

(** Calls that change what the display shows or how the framebuffer is
    set up: the set-up calls, the output switches and the HDMI mode
    setting. *)
Definition changes_display (c : syscall) : bool :=
  is_setup_call c || is_output_switch c ||
  match c with
  | SysIoctl _ cmd _ => cmd =? DE1_CMD_HDMI_SET_MODE
  | _ => false
  end.

Definition read_only (c : syscall) : bool := negb (changes_display c).

(** A framebuffer request for an unscaled framebuffer: work mode normal
    and equal source and output sizes; every other call passes. *)
Definition unscaled_request (c : syscall) : bool :=
  match c with
  | SysIoctl _ cmd (ArgFbPara _ p) =>
      if cmd =? DE1_CMD_FB_REQUEST
      then (mode p =? DE1_LAYER_WORK_MODE_NORMAL) &&
           (width p =? output_width p) && (height p =? output_height p)
      else true
  | _ => true
  end.

(** Every character of [s] satisfies [p]. *)
Fixpoint all_chars (p : ascii -> bool) (s : string) : bool :=
  match s with
  | EmptyString => true
  | String c r => p c && all_chars p r
  end.

(** Some character of [s] satisfies [p]. *)
Fixpoint some_char (p : ascii -> bool) (s : string) : bool :=
  match s with
  | EmptyString => false
  | String c r => p c || some_char p r
  end.

(** The characters a number may consist of for strtol: white space, a
    sign, digits. *)
Definition numeric_char (c : ascii) : bool :=
  isspace c || Ascii.eqb c "-" || Ascii.eqb c "+" || isdigit c.

(** The letters every mode name contains: i (interlaced) or p
    (progressive). *)
Definition scan_letter (c : ascii) : bool := Ascii.eqb c "i" || Ascii.eqb c "p".

(** The command word the option loop stops at does not start with a
    dash. *)
Definition command_word_ok (rest : list string) : Prop :=
  match rest with
  | c :: _ => starts_with_dash c = false
  | [] => True
  end.


(** * Properties *)

(** ** Mode catalog *)

Lemma char_code_inj (a b : ascii) : char_code a - char_code b = 0 -> a = b.
Proof.
  unfold char_code. intros H.
  assert (E : nat_of_ascii a = nat_of_ascii b) by lia.
  rewrite <- (ascii_nat_embedding a), <- (ascii_nat_embedding b).
  now rewrite E.
Qed.

Lemma char_code_pos (a : ascii) : 0 <= char_code a.
Proof. unfold char_code. lia. Qed.

Lemma tolower_not_nul (c : ascii) : c <> "000"%char -> char_code (tolower c) <> 0.
Proof.
  intros Hc H. apply Hc.
  destruct c as [[] [] [] [] [] [] [] []]; vm_compute in H; congruence.
Qed.

(** [strcasecmp] returns 0 exactly on strings equal up to letter case. *)
Lemma strcasecmp_zero (a b : string) :
  nul_free a -> nul_free b -> (strcasecmp a b = 0 <-> lower a = lower b).
Proof.
  revert b. induction a as [|c a IH]; intros [|d b]; simpl; intros Ha Hb.
  - tauto.
  - split; [|discriminate]. intros H. exfalso.
    apply (tolower_not_nul d); [tauto | lia].
  - split; [|discriminate]. intros H. exfalso.
    apply (tolower_not_nul c); [tauto | lia].
  - destruct (Z.eqb_spec (char_code (tolower c) - char_code (tolower d)) 0) as [E|E].
    + apply char_code_inj in E. rewrite E. rewrite IH by tauto.
      split; [intros ->; reflexivity | intros H; now inversion H].
    + split; [intros H; contradiction|].
      intros H. inversion H as [[H1 H2]]. rewrite H1 in E. lia.
Qed.

Lemma table_scan_ext (hit1 hit2 : string -> mode_info_t -> bool) tbl i :
  (forall e n, In e tbl -> mi_name e = Some n -> hit1 n e = hit2 n e) ->
  table_scan hit1 tbl i = table_scan hit2 tbl i.
Proof.
  revert i. induction tbl as [|e tbl IH]; intros i H; simpl; [reflexivity|].
  destruct (mi_name e) as [n|] eqn:En; [|reflexivity].
  rewrite (H e n (or_introl eq_refl) En).
  destruct (hit2 n e); [reflexivity|].
  apply IH. intros e' n' Hin. apply H. now right.
Qed.

(** What a successful scan says: the hit is at the returned index and no
    earlier entry is one. *)
Lemma table_scan_first (hit : string -> mode_info_t -> bool) tbl i0 i :
  table_scan hit tbl i0 = Some i ->
  exists k n, i = (i0 + k)%nat /\
    mi_name (nth k tbl mode_sentinel) = Some n /\
    hit n (nth k tbl mode_sentinel) = true /\
    forall j, (j < k)%nat ->
      exists m, mi_name (nth j tbl mode_sentinel) = Some m /\
                hit m (nth j tbl mode_sentinel) = false.
Proof.
  revert i0. induction tbl as [|e tbl IH]; intros i0; simpl; [discriminate|].
  destruct (mi_name e) as [n|] eqn:En; [|discriminate].
  destruct (hit n e) eqn:Eh.
  - intros [= <-]. exists 0%nat, n. repeat split; auto. intros j Hj; lia.
  - intros H. destruct (IH _ H) as (k & m & -> & Hn & Hh & Hf).
    exists (S k), m. split; [lia|]. split; [exact Hn|]. split; [exact Hh|].
    intros [|j] Hj; [exists n; auto|]. apply Hf. lia.
Qed.

Lemma mode_names_nul_free (e : mode_info_t) (n : string) :
  In e mode_table -> mi_name e = Some n -> nul_free n.
Proof.
  unfold mode_table. simpl.
  intros H En.
  repeat (destruct H as [<-|H];
          [ simpl in En; try discriminate; injection En as <-;
            simpl; repeat split; discriminate |]).
  contradiction.
Qed.

(** The resolution strings of the command line: with a refresh rate, and
    without one, which leaves the wildcard 0. *)
Example parse_resolution_with_refresh :
  parse_resolution "1280x720@60" uninit uninit = (0, (1280, 720, 60)).
Proof. reflexivity. Qed.

Example parse_resolution_without_refresh :
  parse_resolution "1280x720" uninit uninit = (0, (1280, 720, 0)).
Proof. reflexivity. Qed.

(** C7: for every width/height pair that some catalog entry has, the
    lookup by resolution with refresh 0 returns an entry, that entry has
    the queried width and height, and no entry before it in the table has
    them; for 720x480 it is the 480i entry, which is listed before 480p. *)
Theorem find_mode_by_resolution_wildcard_first (w h : Z) :
  (exists e, In e mode_table /\ mi_name e <> None /\
             mi_width e = w /\ mi_height e = h) ->
  (exists i,
     find_mode_by_resolution w h 0 = Some i /\
     mi_name (mode_at i) <> None /\
     mi_width (mode_at i) = w /\ mi_height (mode_at i) = h /\
     forall j, (j < i)%nat ->
       ~ (mi_width (mode_at j) = w /\ mi_height (mode_at j) = h)) /\
  find_mode_by_resolution 720 480 0 = Some 0%nat /\
  mi_name (mode_at 0) = Some "480i" /\
  mi_name (mode_at 2) = Some "480p".
Proof.
  intros (e & Hin & Hname & <- & <-).
  split; [|repeat split; reflexivity].
  destruct (find_mode_by_resolution (mi_width e) (mi_height e) 0) as [i|] eqn:F.
  - exists i. unfold find_mode_by_resolution in F.
    destruct (table_scan_first _ _ _ _ F) as (k & n & Hi & Hn & Hh & Hf).
    simpl in Hi. subst k. fold (mode_at i) in Hn, Hh.
    rewrite Bool.orb_true_l in Hh.
    destruct ((mi_width (mode_at i) =? mi_width e) &&
              (mi_height (mode_at i) =? mi_height e)) eqn:Ewh; [|discriminate].
    apply andb_prop in Ewh. destruct Ewh as [Ew Eh].
    apply Z.eqb_eq in Ew, Eh.
    repeat split; auto; [congruence|].
    intros j Hj [Hw Hh']. destruct (Hf j Hj) as (m & _ & Hm).
    fold (mode_at j) in Hm. rewrite Hw, Hh', !Z.eqb_refl in Hm. discriminate.
  - exfalso. unfold mode_table in Hin. simpl in Hin.
    repeat (destruct Hin as [<-|Hin]; [vm_compute in F; discriminate|]).
    destruct Hin as [<-|[]]. apply Hname. reflexivity.
Qed.

Lemma find_mode_by_resolution_wildcard_first_witness :
  (exists e, In e mode_table /\ mi_name e <> None /\
             mi_width e = 1920 /\ mi_height e = 1080) /\
  (exists i,
     find_mode_by_resolution 1920 1080 0 = Some i /\
     mi_name (mode_at i) <> None /\
     mi_width (mode_at i) = 1920 /\ mi_height (mode_at i) = 1080 /\
     forall j, (j < i)%nat ->
       ~ (mi_width (mode_at j) = 1920 /\ mi_height (mode_at j) = 1080)).
Proof.
  assert (H : exists e, In e mode_table /\ mi_name e <> None /\
                        mi_width e = 1920 /\ mi_height e = 1080).
  { exists (mk_mode DISP_TV_MOD_1080P_60HZ "1080p60" 1920 1080 60).
    split; [unfold mode_table; simpl; tauto|].
    split; [discriminate|]. split; reflexivity. }
  split; [exact H|].
  exact (proj1 (find_mode_by_resolution_wildcard_first 1920 1080 H)).
Defined.

(** C8: for every catalog entry, looking up its name, in any letter case,
    finds that entry, and looking up the mode identifier of the entry
    found leads back to the same entry. *)
Theorem find_mode_by_name_get_mode_info_round_trip
        (e : mode_info_t) (n s : string) :
  In e mode_table -> mi_name e = Some n ->
  nul_free s -> strcasecmp n s = 0 ->
  exists i,
    find_mode_by_name s = Some i /\
    mode_at i = e /\
    get_mode_info (mi_mode (mode_at i)) = Some i.
Proof.
  intros Hin En Hs Hcmp.
  assert (Hn : nul_free n) by (eapply mode_names_nul_free; eauto).
  assert (Hl : lower n = lower s) by (apply strcasecmp_zero; auto).
  assert (F : find_mode_by_name s = find_mode_by_name n).
  { unfold find_mode_by_name. apply table_scan_ext.
    intros e' n' Hin' En'.
    assert (Hn' : nul_free n') by (eapply mode_names_nul_free; eauto).
    destruct (Z.eqb_spec (strcasecmp n' s) 0) as [E|E];
      destruct (Z.eqb_spec (strcasecmp n' n) 0) as [E'|E']; auto; exfalso.
    - apply E'. apply strcasecmp_zero; auto.
      apply strcasecmp_zero in E; auto. congruence.
    - apply E. apply strcasecmp_zero; auto.
      apply strcasecmp_zero in E'; auto. congruence. }
  rewrite F. clear F Hl Hcmp Hs s Hn.
  unfold mode_table in Hin. simpl in Hin.
  repeat (destruct Hin as [<-|Hin];
          [ injection En as <-; eexists; repeat split; reflexivity |]).
  destruct Hin as [<-|[]]. discriminate.
Qed.

Lemma find_mode_by_name_get_mode_info_round_trip_witness :
  In (mk_mode DISP_TV_MOD_720P_60HZ "720p60" 1280 720 60) mode_table /\
  nul_free "720P60" /\ strcasecmp "720p60" "720P60" = 0 /\
  exists i,
    find_mode_by_name "720P60" = Some i /\
    mode_at i = mk_mode DISP_TV_MOD_720P_60HZ "720p60" 1280 720 60 /\
    get_mode_info (mi_mode (mode_at i)) = Some i.
Proof.
  assert (Hin : In (mk_mode DISP_TV_MOD_720P_60HZ "720p60" 1280 720 60) mode_table)
    by (unfold mode_table; simpl; tauto).
  assert (Hs : nul_free "720P60") by (simpl; repeat split; discriminate).
  assert (Hc : strcasecmp "720p60" "720P60" = 0) by reflexivity.
  split; [exact Hin|]. split; [exact Hs|]. split; [exact Hc|].
  exact (find_mode_by_name_get_mode_info_round_trip _ "720p60" "720P60"
           Hin eq_refl Hs Hc).
Defined.

(** ** Stepping through the program *)

Ltac unfold_prog :=
  unfold hdmi_on, hdmi_off, hdmi_init, hdmi_get_mode, hdmi_mode_supported,
    get_screen_size, get_output_type, setup_fb_with_scaling,
    de1_hdmi_init, de1_hdmi_on, de1_hdmi_off, de1_hdmi_set_mode,
    de1_hdmi_mode_supported, de1_hdmi_get_mode, de1_get_screen_size,
    de1_get_output_type, de1_setup_fb_with_scaling, de1_fb_release,
    de1_fb_request,
    de2_hdmi_init, de2_hdmi_off, de2_device_switch, de2_hdmi_mode_supported,
    de2_hdmi_get_mode, de2_get_screen_size, de2_get_output_type,
    de2_setup_fb_with_scaling,
    detect_de_version, detect_by_ioctl_probe, detect_soc_from_cpuinfo,
    disp_ioctl, ioctl, sys, bind, ret, gets, modify.

Ltac break_branch :=
  match goal with
  | |- context [if ?c then _ else _] => destruct c eqn:?
  | |- context [match ?x with _ => _ end] => destruct x eqn:?
  end.

Ltac absurd_order :=
  exfalso;
  match goal with
  | L : ?a < ?b, H : ?b <= ?a |- _ =>
      exact (Z.lt_irrefl _ (Z.lt_le_trans _ _ _ L H))
  end.

(** C5: on every path of the HDMI enable operation, for either generation
    and for an unresolved one, the force flag holds on return the value it
    held on entry. *)
Theorem hdmi_on_restores_force (env : oracle) (w : world) :
  g_force (snd (hdmi_on env w)) = g_force w.
Proof.
  destruct w as [v fd fbfd scr verb force e t].
  unfold_prog. cbn.
  destruct v; cbn; try reflexivity;
    repeat (break_branch; cbn; try reflexivity).
Qed.

(** C10: while the display-engine generation is unresolved, the listed
    dispatcher operations fail at once and leave the world, hence the
    trace of system calls, as it was: get-screen-size, get-output-type,
    mode init, enable, disable and scaled-framebuffer setup return -1,
    the mode-support query returns 0 and mode get returns the invalid
    mode -1. *)
Theorem unknown_generation_fails_without_calls
        (env : oracle) (w : world)
        (width height mode fb_id fb_w fb_h scn_w scn_h depth : Z) :
  g_de_version w = DE_VERSION_UNKNOWN ->
  get_screen_size env width height w = ((-1, (width, height)), w) /\
  get_output_type env w = (-1, w) /\
  hdmi_init env mode w = (-1, w) /\
  hdmi_on env w = (-1, w) /\
  hdmi_off env w = (-1, w) /\
  setup_fb_with_scaling env fb_id fb_w fb_h scn_w scn_h depth w = (-1, w) /\
  hdmi_mode_supported env mode w = (0, w) /\
  hdmi_get_mode env w = (-1, w).
Proof.
  intros Hv.
  unfold get_screen_size, get_output_type, hdmi_init, hdmi_on, hdmi_off,
    setup_fb_with_scaling, hdmi_mode_supported, hdmi_get_mode,
    bind, gets, ret.
  rewrite Hv. repeat split; reflexivity.
Qed.

Lemma unknown_generation_fails_without_calls_witness :
  g_de_version initial_world = DE_VERSION_UNKNOWN /\
  hdmi_on (fun _ _ => not_open_reply ArgVarInfoOut initial_world) initial_world
    = (-1, initial_world) /\
  hdmi_mode_supported (fun _ _ => not_open_reply ArgVarInfoOut initial_world)
                      5 initial_world = (0, initial_world).
Proof.
  pose proof (unknown_generation_fails_without_calls
                (fun _ _ => not_open_reply ArgVarInfoOut initial_world)
                initial_world 0 0 5 0 0 0 0 0 32 eq_refl) as H.
  split; [reflexivity|].
  split; [exact (proj1 (proj2 (proj2 (proj2 H)))) |].
  exact (proj1 (proj2 (proj2 (proj2 (proj2 (proj2 (proj2 H))))))).
Defined.

(** The unlisted hot-plug query reads the sysfs state before it looks at
    the generation; unresolved, it issues no ioctl and answers the state
    read, or -1. *)
Lemma hdmi_get_hpd_unknown_generation (env : oracle) (w : world) :
  g_de_version w = DE_VERSION_UNKNOWN ->
  let c := SysReadFile HDMI_STATE in
  let r := env (trace w) c in
  hdmi_get_hpd env w =
    (match r_text r with
     | Some text => match fscanf_d text with Some s => s | None => -1 end
     | None => -1
     end, record_call c r w).
Proof.
  intros Hv. unfold hdmi_get_hpd, read_hdmi_state, sys, bind, gets, ret. cbn.
  destruct (r_text _); [destruct (fscanf_d _)|]; cbn; rewrite ?Hv; reflexivity.
Qed.

(** C1: with the display device open, generation-1 HDMI initialization
    without force first asks whether the mode is supported, and on a
    non-positive answer returns -1 having issued nothing else; with force,
    or on a positive answer, it issues the disable call, whatever that
    returns the set-mode call, and only if set-mode did not fail the
    enable call: a failing set-mode gives -1, otherwise the result is the
    enable call's return value. *)
Theorem de1_hdmi_init_sequence (env : oracle) (w : world) (mode : disp_tv_mode) :
  0 <= g_disp_fd w ->
  let fd := g_disp_fd w in
  let scr := g_screen w in
  let c_sup := SysIoctl fd DE1_CMD_HDMI_SUPPORT_MODE (ArgWords scr (to_u32 mode) 0 0) in
  let c_off := SysIoctl fd DE1_CMD_HDMI_OFF (ArgWords scr 0 0 0) in
  let c_set := SysIoctl fd DE1_CMD_HDMI_SET_MODE (ArgWords scr (to_u32 mode) 0 0) in
  let c_on := SysIoctl fd DE1_CMD_HDMI_ON (ArgWords scr 0 0 0) in
  let r_sup := env (trace w) c_sup in
  let asked := if g_force w =? 0 then [(c_sup, r_sup)] else [] in
  let r_off := env (trace w ++ asked) c_off in
  let r_set := env (trace w ++ asked ++ [(c_off, r_off)]) c_set in
  let r_on := env (trace w ++ asked ++ [(c_off, r_off); (c_set, r_set)]) c_on in
  let result := fst (de1_hdmi_init env mode w) in
  let issued := trace (snd (de1_hdmi_init env mode w)) in
  (g_force w = 0 /\ r_ret r_sup <= 0 ->
     result = -1 /\ issued = trace w ++ [(c_sup, r_sup)]) /\
  (g_force w <> 0 \/ 0 < r_ret r_sup ->
     (r_ret r_set < 0 ->
        result = -1 /\
        issued = trace w ++ asked ++ [(c_off, r_off); (c_set, r_set)]) /\
     (0 <= r_ret r_set ->
        result = r_ret r_on /\
        issued = trace w ++ asked ++ [(c_off, r_off); (c_set, r_set); (c_on, r_on)])).
Proof.
  intros Hfd.
  destruct w as [v fd fbfd scr verb force e t]. cbn in Hfd |- *.
  unfold_prog. cbn.
  assert (Efd : (fd <? 0) = false) by (apply Z.ltb_ge; exact Hfd).
  destruct (Z.eqb_spec force 0) as [F|F]; repeat (progress (cbn; rewrite ?Efd)).
  - destruct (Z.ltb_spec 0 (r_ret (env t (SysIoctl fd DE1_CMD_HDMI_SUPPORT_MODE
                                           (ArgWords scr (to_u32 mode) 0 0)))))
      as [S|S]; repeat (progress (cbn; rewrite ?Efd)).
    + split; [intros [_ H]; absurd_order|]. intros _.
      repeat rewrite <- app_assoc. cbn.
      match goal with |- context [if ?c <? 0 then _ else _] =>
        destruct (Z.ltb_spec c 0) as [L|L] end;
        repeat (progress (cbn; rewrite ?Efd)); repeat rewrite <- app_assoc; cbn.
      * split; [intros _; split; reflexivity | intros H; absurd_order].
      * split; [intros H; absurd_order | intros _; split; reflexivity].
    + split; [intros _; split; reflexivity|].
      intros [H|H]; [contradiction | absurd_order].
  - split; [intros [H _]; contradiction|]. intros _.
    rewrite ?app_nil_r. repeat rewrite <- app_assoc. cbn.
    match goal with |- context [if ?c <? 0 then _ else _] =>
      destruct (Z.ltb_spec c 0) as [L|L] end;
      repeat (progress (cbn; rewrite ?Efd)); repeat rewrite <- app_assoc; cbn.
    * split; [intros _; split; reflexivity | intros H; absurd_order].
    * split; [intros H; absurd_order | intros _; split; reflexivity].
Qed.

Lemma de1_hdmi_init_sequence_witness :
  0 <= g_disp_fd a20_open_world /\
  fst (de1_hdmi_init a20_board 5 a20_open_world) = 0 /\
  List.length (trace (snd (de1_hdmi_init a20_board 5 a20_open_world))) = 4%nat.
Proof.
  assert (Hfd : 0 <= g_disp_fd a20_open_world) by (cbn; lia).
  split; [exact Hfd|].
  pose proof (de1_hdmi_init_sequence a20_board a20_open_world 5 Hfd) as H.
  cbv zeta in H. destruct H as [_ H].
  destruct (H (or_intror (eq_refl : (0 ?= 1) = Lt))) as [_ H2].
  destruct (H2 (fun E : (0 ?= 0) = Gt => ltac:(discriminate E))) as [R T].
  split; [exact R|]. rewrite T. reflexivity.
Defined.

(** ** Generation detection *)

Lemma scan_cpuinfo_identity (text : string) :
  scan_cpuinfo (fgets_seq text EmptyString 255) = identity_generation (Some text).
Proof.
  unfold identity_generation, hardware_line.
  induction (fgets_seq text EmptyString 255) as [|line rest IH]; [reflexivity|].
  cbn [scan_cpuinfo find].
  destruct (strstr line "Hardware"); [|exact IH].
  unfold names_one_of, gen1_identifiers, gen2_identifiers. cbn [existsb].
  rewrite !Bool.orb_false_r, <- !Bool.orb_assoc. reflexivity.
Qed.

(** C2: the detector reads the hardware-identity text first and returns
    the generation it names; failing that it returns Gen1 when the Gen1
    hot-plug query is answered with anything but ENOTTY; failing that,
    Gen2 when the Gen2 mode-support query is so answered; failing that,
    Gen1.  It never returns Unknown. *)
Theorem detect_de_version_order (env : oracle) (fd : Z) (w : world) :
  let c_id := SysReadFile CPUINFO in
  let r_id := env (trace w) c_id in
  let c_hpd := SysIoctl fd DE1_CMD_HDMI_GET_HPD (ArgWords 0 0 0 0) in
  let r_hpd := env (trace w ++ [(c_id, r_id)]) c_hpd in
  let c_sup := SysIoctl fd DE2_CMD_HDMI_SUPPORT_MODE
                        (ArgWords 0 (to_u32 DISP_TV_MOD_720P_60HZ) 0 0) in
  let r_sup := env (trace w ++ [(c_id, r_id); (c_hpd, r_hpd)]) c_sup in
  let result := fst (detect_de_version env fd w) in
  let issued := trace (snd (detect_de_version env fd w)) in
  result <> DE_VERSION_UNKNOWN /\
  (identity_generation (r_text r_id) <> DE_VERSION_UNKNOWN ->
     result = identity_generation (r_text r_id) /\
     issued = trace w ++ [(c_id, r_id)]) /\
  (identity_generation (r_text r_id) = DE_VERSION_UNKNOWN ->
     (responds r_hpd ->
        result = DE_VERSION_1 /\
        issued = trace w ++ [(c_id, r_id); (c_hpd, r_hpd)]) /\
     (~ responds r_hpd -> responds r_sup ->
        result = DE_VERSION_2 /\
        issued = trace w ++ [(c_id, r_id); (c_hpd, r_hpd); (c_sup, r_sup)]) /\
     (~ responds r_hpd -> ~ responds r_sup ->
        result = DE_VERSION_1 /\
        issued = trace w ++ [(c_id, r_id); (c_hpd, r_hpd); (c_sup, r_sup)])).
Proof.
  destruct w as [v dfd fbfd scr verb force e t].
  unfold responds. unfold_prog. cbn.
  set (r_id := env t (SysReadFile CPUINFO)).
  assert (E : (match r_text r_id with
               | Some text => scan_cpuinfo (fgets_seq text EmptyString 255)
               | None => DE_VERSION_UNKNOWN
               end) = identity_generation (r_text r_id)).
  { destruct (r_text r_id); [apply scan_cpuinfo_identity | reflexivity]. }
  destruct (r_text r_id) as [text|] eqn:Et; cbn.
  - rewrite E. destruct (identity_generation (Some text)) eqn:G; cbn.
    + repeat rewrite <- app_assoc; cbn.
      split; [|split; [intros H; congruence|intros _]];
        repeat (match goal with
                | |- context [(0 <=? ?x) || negb (?y =? ENOTTY)] =>
                    destruct (Z.leb_spec 0 x); destruct (Z.eqb_spec y ENOTTY)
                end; cbn; repeat rewrite <- app_assoc; cbn);
        try discriminate;
        repeat split; intros; try reflexivity; try discriminate;
        exfalso; intuition (try congruence; try absurd_order).
    + repeat split; intros; try discriminate; try congruence.
    + repeat split; intros; try discriminate; try congruence.
  - clear E. repeat rewrite <- app_assoc; cbn.
    split; [|split; [intros H; congruence|intros _]];
      repeat (match goal with
              | |- context [(0 <=? ?x) || negb (?y =? ENOTTY)] =>
                  destruct (Z.leb_spec 0 x); destruct (Z.eqb_spec y ENOTTY)
              end; cbn; repeat rewrite <- app_assoc; cbn);
      try discriminate;
      repeat split; intros; try reflexivity; try discriminate;
      exfalso; intuition (try congruence; try absurd_order).
Qed.

Lemma detect_de_version_order_witness :
  identity_generation (r_text (silent_board [] (SysReadFile CPUINFO)))
    = DE_VERSION_UNKNOWN /\
  fst (detect_de_version silent_board 3 initial_world) = DE_VERSION_1 /\
  fst (detect_de_version h3_board 3 initial_world) = DE_VERSION_2.
Proof.
  split; [reflexivity|]. split.
  - pose proof (detect_de_version_order silent_board 3 initial_world) as H.
    cbv zeta in H. destruct H as (_ & _ & H).
    destruct (H eq_refl) as (_ & _ & D).
    assert (N : forall r, r_ret r = -1 -> r_errno r = ENOTTY -> ~ responds r).
    { intros r Hr He [L|E]; [rewrite Hr in L; apply L; reflexivity
                            | apply E; exact He]. }
    exact (proj1 (D (N (reply_error ENOTTY) eq_refl eq_refl)
                    (N (reply_error ENOTTY) eq_refl eq_refl))).
  - pose proof (detect_de_version_order h3_board 3 initial_world) as H.
    cbv zeta in H. destruct H as (_ & H & _).
    assert (K : identity_generation
                  (r_text (h3_board (trace initial_world) (SysReadFile CPUINFO)))
                <> DE_VERSION_UNKNOWN) by (vm_compute; discriminate).
    exact (proj1 (H K)).
Defined.

(** Where neither the identity text nor a probe decides, the default is
    Gen1 after both probes. *)
Example detect_de_version_default :
  fst (detect_de_version silent_board 3 initial_world) = DE_VERSION_1 /\
  List.length (trace (snd (detect_de_version silent_board 3 initial_world))) = 3%nat.
Proof. split; reflexivity. Qed.

(** ** Scaled-framebuffer setup *)

(** What the generation-1 setup does with the display device open: the
    release, whatever it returns, then the request, whose failure alone
    makes the setup fail.  The dimensions are passed on as given. *)
Lemma de1_setup_fb_with_scaling_calls
      (env : oracle) (w : world) (fb_id fb_w fb_h scn_w scn_h depth : Z) :
  0 <= g_disp_fd w ->
  let fd := g_disp_fd w in
  let work_mode := if negb (fb_w =? scn_w) || negb (fb_h =? scn_h)
                   then DE1_LAYER_WORK_MODE_SCALER
                   else DE1_LAYER_WORK_MODE_NORMAL in
  let c_rel := SysIoctl fd DE1_CMD_FB_RELEASE (ArgWords fb_id 0 0 0) in
  let r_rel := env (trace w) c_rel in
  let c_req := SysIoctl fd DE1_CMD_FB_REQUEST
                 (ArgFbPara fb_id (fb_request_para work_mode fb_w fb_h scn_w scn_h
                                                   (g_screen w))) in
  let r_req := env (trace w ++ [(c_rel, r_rel)]) c_req in
  de1_setup_fb_with_scaling env fb_id fb_w fb_h scn_w scn_h depth w =
    (if r_ret r_req <? 0 then -1 else 0,
     record_call c_req r_req (record_call c_rel r_rel w)).
Proof.
  intros Hfd.
  destruct w as [v fd fbfd scr verb force e t]. cbn in Hfd |- *.
  assert (Efd : (fd <? 0) = false) by (apply Z.ltb_ge; exact Hfd).
  unfold_prog. repeat (progress (cbn; rewrite ?Efd)).
  unfold fb_request_para.
  match goal with
  | |- context [if ?c <? 0 then _ else _] => destruct (c <? 0)
  end; reflexivity.
Qed.

(** C3: a scaled-framebuffer setup whose source and destination
    dimensions are equal asks, on generation 1, for a framebuffer in work
    mode normal (0); on generation 2, when the framebuffer already has the
    requested resolution and depth, it opens the framebuffer, reads its
    geometry, closes it and succeeds without writing the geometry. *)
Theorem setup_with_equal_dimensions
        (env : oracle) (w : world) (fb_id fb_w fb_h depth : Z) :
  (0 <= g_disp_fd w ->
   let fd := g_disp_fd w in
   let c_rel := SysIoctl fd DE1_CMD_FB_RELEASE (ArgWords fb_id 0 0 0) in
   let r_rel := env (trace w) c_rel in
   let c_req := SysIoctl fd DE1_CMD_FB_REQUEST
                  (ArgFbPara fb_id
                     (fb_request_para DE1_LAYER_WORK_MODE_NORMAL
                                      fb_w fb_h fb_w fb_h (g_screen w))) in
   let r_req := env (trace w ++ [(c_rel, r_rel)]) c_req in
   trace (snd (de1_setup_fb_with_scaling env fb_id fb_w fb_h fb_w fb_h depth w))
     = trace w ++ [(c_rel, r_rel); (c_req, r_req)] /\
   DE1_LAYER_WORK_MODE_NORMAL = 0) /\
  (let c_open := SysOpen FB_DEV O_RDWR in
   let r_open := env (trace w) c_open in
   let c_get := SysIoctl (r_ret r_open) FBIOGET_VSCREENINFO ArgVarInfoOut in
   let r_get := env (trace w ++ [(c_open, r_open)]) c_get in
   let c_close := SysClose (r_ret r_open) in
   let r_close := env (trace w ++ [(c_open, r_open); (c_get, r_get)]) c_close in
   0 <= r_ret r_open -> 0 <= r_ret r_get ->
   xres (r_vinfo r_get) = fb_w -> yres (r_vinfo r_get) = fb_h ->
   bits_per_pixel (r_vinfo r_get) = to_u32 depth ->
   de2_setup_fb_with_scaling env fb_id fb_w fb_h fb_w fb_h depth w =
     (0, record_call c_close r_close
           (record_call c_get r_get (record_call c_open r_open w))) /\
   trace (snd (de2_setup_fb_with_scaling env fb_id fb_w fb_h fb_w fb_h depth w))
     = trace w ++ [(c_open, r_open); (c_get, r_get); (c_close, r_close)] /\
   existsb (fun e => is_geometry_write (fst e))
           [(c_open, r_open); (c_get, r_get); (c_close, r_close)] = false).
Proof.
  split.
  - intros Hfd. cbv zeta.
    pose proof (de1_setup_fb_with_scaling_calls env w fb_id fb_w fb_h fb_w fb_h
                                                depth Hfd) as H.
    cbv zeta in H. rewrite !Z.eqb_refl in H. cbn [negb orb] in H.
    rewrite H. cbn. rewrite <- app_assoc. split; reflexivity.
  - cbv zeta. intros Ho Hg Hx Hy Hb.
    destruct w as [v fd fbfd scr verb force e t]. cbn in *.
    unfold_prog. cbn.
    apply Z.ltb_ge in Ho, Hg. rewrite Ho. cbn. rewrite Hg. cbn.
    rewrite Hx, Hy, Hb, !Z.eqb_refl. cbn.
    repeat rewrite <- app_assoc. cbn. repeat split; reflexivity.
Qed.

Lemma setup_with_equal_dimensions_witness :
  0 <= g_disp_fd a20_open_world /\
  List.length (trace (snd (de1_setup_fb_with_scaling a20_board 0 1280 720 1280 720 32
                                               a20_open_world))) = 2%nat /\
  fst (de2_setup_fb_with_scaling h3_board 0 1280 720 1280 720 32 h3_open_world) = 0.
Proof.
  assert (Hfd : 0 <= g_disp_fd a20_open_world) by (cbn; lia).
  split; [exact Hfd|]. split.
  - destruct (proj1 (setup_with_equal_dimensions a20_board a20_open_world
                                                 0 1280 720 32) Hfd) as [T _].
    rewrite T. reflexivity.
  - pose proof (proj2 (setup_with_equal_dimensions h3_board h3_open_world
                                                   0 1280 720 32)) as H.
    cbv zeta in H.
    destruct (H ltac:(cbn; lia) ltac:(cbn; lia) eq_refl eq_refl eq_refl) as [E _].
    rewrite E. reflexivity.
Defined.

(** ** Reasoning about the calls a computation issues *)

Lemma runs_ret {A} (a : A) (Q : A -> list event -> Prop) :
  Q a [] -> runs (ret a) Q.
Proof. intros H w. exists []. cbn. rewrite app_nil_r. auto. Qed.

Lemma runs_gets {A} (f : world -> A) (Q : A -> list event -> Prop) :
  (forall w, Q (f w) []) -> runs (gets f) Q.
Proof. intros H w. exists []. cbn. rewrite app_nil_r. auto. Qed.

Lemma runs_modify (f : world -> world) (Q : unit -> list event -> Prop) :
  (forall w, trace (f w) = trace w) -> Q tt [] -> runs (modify f) Q.
Proof. intros Hf H w. exists []. cbn. rewrite app_nil_r, Hf. auto. Qed.

Lemma runs_sys (env : oracle) (c : syscall) (Q : reply -> list event -> Prop) :
  (forall r, Q r [(c, r)]) -> runs (sys env c) Q.
Proof. intros H w. eexists. cbn. split; [reflexivity | apply H]. Qed.

Lemma runs_bind {A B} (m : M A) (k : A -> M B)
      (P : A -> list event -> Prop) (Q : B -> list event -> Prop) :
  runs m P ->
  (forall a n1, P a n1 -> runs (k a) (fun b n2 => Q b (n1 ++ n2))) ->
  runs (bind m k) Q.
Proof.
  intros Hm Hk w. unfold bind.
  destruct (Hm w) as (n1 & T1 & P1).
  destruct (m w) as [a w1]. cbn in T1, P1.
  destruct (Hk a n1 P1 w1) as (n2 & T2 & Q2).
  exists (n1 ++ n2). rewrite T2, T1, app_assoc. auto.
Qed.

Lemma runs_weaken {A} (m : M A) (P Q : A -> list event -> Prop) :
  runs m P -> (forall a n, P a n -> Q a n) -> runs m Q.
Proof.
  intros Hm H w. destruct (Hm w) as (n & T & Pn). exists n. auto.
Qed.

Lemma only_app ok (n1 n2 : list event) :
  only ok n1 -> only ok n2 -> only ok (n1 ++ n2).
Proof. intros H1 H2. apply Forall_app. auto. Qed.


Lemma confined_ret {A} ok (a : A) : confined ok (ret a).
Proof. apply runs_ret. constructor. Qed.

Lemma confined_gets {A} ok (f : world -> A) : confined ok (gets f).
Proof. apply runs_gets. intros. constructor. Qed.

Lemma confined_modify ok (f : world -> world) :
  (forall w, trace (f w) = trace w) -> confined ok (modify f).
Proof. intros H. apply runs_modify; [exact H | constructor]. Qed.

Lemma confined_sys ok (env : oracle) (c : syscall) :
  ok c = true -> confined ok (sys env c).
Proof. intros H. apply runs_sys. intros r. repeat constructor. exact H. Qed.

Lemma confined_bind {A B} ok (m : M A) (k : A -> M B) :
  confined ok m -> (forall a, confined ok (k a)) -> confined ok (bind m k).
Proof.
  intros Hm Hk. eapply runs_bind; [exact Hm|].
  intros a n1 H1. eapply runs_weaken; [apply Hk|].
  intros b n2 H2. apply only_app; assumption.
Qed.


(** A confined computation followed by one whose result is [v] and which
    is itself confined. *)
Lemma runs_after_confined {A B} ok (m : M A) (k : A -> M B) (v : B) :
  confined ok m ->
  (forall a, runs (k a) (fun b n => b = v /\ only ok n)) ->
  runs (bind m k) (fun b n => b = v /\ only ok n).
Proof.
  intros Hm Hk. eapply runs_bind; [exact Hm|].
  intros a n1 H1. eapply runs_weaken; [apply Hk|].
  intros b n2 [E H2]. split; [exact E | apply only_app; assumption].
Qed.

Ltac confined_step :=
  match goal with
  | |- confined _ (ret _) => apply confined_ret
  | |- confined _ (gets _) => apply confined_gets
  | |- confined _ (modify _) => apply confined_modify; intros; reflexivity
  | |- confined _ (sys _ _) => apply confined_sys; reflexivity
  | |- confined _ (ioctl _ _ _ _) => apply confined_sys; reflexivity
  | |- confined _ (bind _ _) => apply confined_bind; [|intros]
  | |- confined _ (if ?c then _ else _) => destruct c
  | |- confined _ (match ?x with _ => _ end) => destruct x
  | |- confined _ (let (_, _) := ?x in _) => destruct x
  end.

Lemma disp_ioctl_quiet (env : oracle) (cmd : Z) (a : ioctl_arg) :
  not_setup (SysIoctl 0 cmd a) = true -> confined not_setup (disp_ioctl env cmd a).
Proof.
  intros H. unfold disp_ioctl. repeat confined_step.
  apply confined_sys. exact H.
Qed.

Lemma detect_de_version_quiet (env : oracle) (fd : Z) :
  confined not_setup (detect_de_version env fd).
Proof.
  unfold detect_de_version, detect_soc_from_cpuinfo, detect_by_ioctl_probe.
  repeat confined_step.
Qed.

Lemma disp_open_quiet (env : oracle) : confined not_setup (disp_open env).
Proof.
  unfold disp_open. repeat confined_step. apply detect_de_version_quiet.
Qed.

Lemma disp_close_quiet (env : oracle) : confined not_setup (disp_close env).
Proof. unfold disp_close. repeat confined_step. Qed.

Lemma get_screen_size_quiet (env : oracle) (width height : Z) :
  confined not_setup (get_screen_size env width height).
Proof.
  unfold get_screen_size, de1_get_screen_size, de2_get_screen_size.
  repeat (confined_step || (apply disp_ioctl_quiet; reflexivity)).
Qed.

Lemma get_fb_info_quiet (env : oracle) (v : fb_var_screeninfo) (want_finfo : bool) :
  confined not_setup (get_fb_info env v want_finfo).
Proof. unfold get_fb_info. repeat confined_step. Qed.

(** ** Depth validation *)

Lemma main_scale_bad_depth (env : oracle) (rest : list string) (w : world) :
  bad_depth (atoi (arg rest 2)) = true ->
  main_scale env rest w = (1, w).
Proof.
  intros Hbad. unfold main_scale.
  destruct (parse_resolution (arg rest 0) uninit uninit) as [p1 [[fw fh] r1]].
  destruct (p1 =? 0); [|reflexivity].
  destruct (parse_resolution (arg rest 1) uninit uninit) as [p2 [[sw sh] r2]].
  destruct (p2 =? 0); [|reflexivity].
  rewrite Hbad. reflexivity.
Qed.

Lemma main_autoscale_bad_depth (env : oracle) (rest : list string) :
  (1 <= List.length rest)%nat ->
  bad_depth (atoi (arg rest 0)) = true ->
  runs (main_autoscale env rest) (fun r n => r = 1 /\ only not_setup n).
Proof.
  intros Hlen Hbad. unfold main_autoscale.
  apply Nat.leb_le in Hlen. rewrite Hlen. cbn [andb]. rewrite Hbad.
  apply runs_after_confined; [apply get_fb_info_quiet|].
  intros [g vinfo]. destruct (g <? 0); [apply runs_ret; split; [reflexivity|constructor]|].
  apply runs_after_confined; [apply get_screen_size_quiet|].
  intros [s [sw sh]].
  destruct (s <? 0); apply runs_ret; split; (reflexivity || constructor).
Qed.

Lemma main_noscale_bad_depth (env : oracle) (rest : list string) :
  (1 <= List.length rest)%nat ->
  bad_depth (atoi (arg rest 0)) = true ->
  runs (main_noscale env rest) (fun r n => r = 1 /\ only not_setup n).
Proof.
  intros Hlen Hbad. unfold main_noscale.
  apply Nat.leb_le in Hlen. rewrite Hlen. rewrite Hbad.
  apply runs_after_confined; [apply get_screen_size_quiet|].
  intros [s [sw sh]].
  destruct (s <? 0); apply runs_ret; split; (reflexivity || constructor).
Qed.

(** The part of [main] after the command has run: closing the
    descriptors leaves the exit code alone and changes no set-up. *)
Lemma main_epilogue_quiet (env : oracle) (r : Z) :
  runs (fb <- gets g_fb_fd ;;
        (if 0 <=? fb then sys env (SysClose fb) ;; ret tt else ret tt) ;;
        disp_close env ;;
        ret r)
       (fun b n => b = r /\ only not_setup n).
Proof.
  apply runs_after_confined; [apply confined_gets|]. intros fb.
  apply runs_after_confined; [repeat confined_step|]. intros _.
  apply runs_after_confined; [apply disp_close_quiet|]. intros _.
  apply runs_ret. split; [reflexivity | constructor].
Qed.

(** C4, amended: for [scale], [autoscale] and [noscale], a depth argument
    other than 16, 24 or 32 makes the program return 1 without any call
    that changes the framebuffer set-up: no release or request of a
    framebuffer, no opening of the framebuffer for writing, no write of
    its geometry.  For [scale] the check comes before every call of the
    command; [autoscale] and [noscale] make their read-only queries
    first. *)
Theorem bad_depth_rejected_before_setup
        (env : oracle) (w : world) (prog cmd : string) (rest : list string) :
  (cmd = "scale" /\ (3 <= List.length rest)%nat /\
   bad_depth (atoi (arg rest 2)) = true) \/
  ((cmd = "autoscale" \/ cmd = "noscale") /\ (1 <= List.length rest)%nat /\
   bad_depth (atoi (arg rest 0)) = true) ->
  (exists new,
     trace (snd (main env (prog :: cmd :: rest) w)) = trace w ++ new /\
     fst (main env (prog :: cmd :: rest) w) = 1 /\
     only not_setup new) /\
  (cmd = "scale" -> forall w1, main_command env cmd rest w1 = (1, w1)).
Proof.
  intros H.
  assert (Hcmd : runs (main_command env cmd rest) (fun r n => r = 1 /\ only not_setup n) /\
                 (cmd = "scale" -> forall w1, main_command env cmd rest w1 = (1, w1)) /\
                 starts_with_dash cmd = false).
  { destruct H as [(-> & Hlen & Hbad) | ([-> | ->] & Hlen & Hbad)].
    - assert (E : forall w1, main_command env "scale" rest w1 = (1, w1)).
      { intros w1. unfold main_command. cbn [String.eqb Ascii.eqb Bool.eqb andb].
        apply Nat.leb_le in Hlen. rewrite Hlen.
        destruct ((1 <=? List.length rest)%nat); destruct ((2 <=? List.length rest)%nat);
          cbn; apply main_scale_bad_depth; exact Hbad. }
      split; [|split; [intros _; exact E | reflexivity]].
      intros w1. exists []. rewrite E. cbn. rewrite app_nil_r.
      repeat split. constructor.
    - split; [|split; [discriminate | reflexivity]].
      unfold main_command. cbn [String.eqb Ascii.eqb Bool.eqb andb].
      apply main_autoscale_bad_depth; assumption.
    - split; [|split; [discriminate | reflexivity]].
      unfold main_command. cbn [String.eqb Ascii.eqb Bool.eqb andb].
      apply main_noscale_bad_depth; assumption. }
  destruct Hcmd as (Hrun & Hscale & Hdash).
  split; [|exact Hscale].
  assert (R : runs (main env (prog :: cmd :: rest)) (fun r n => r = 1 /\ only not_setup n)).
  { unfold main. cbn [parse_options]. rewrite Hdash.
    change (runs (d <- disp_open env ;;
                  if d <? 0 then ret 1
                  else r <- main_command env cmd rest ;;
                       fb <- gets g_fb_fd ;;
                       (if 0 <=? fb then sys env (SysClose fb) ;; ret tt else ret tt) ;;
                       disp_close env ;;
                       ret r)
                 (fun r n => r = 1 /\ only not_setup n)).
    apply runs_after_confined; [apply disp_open_quiet|]. intros d.
    destruct (d <? 0); [apply runs_ret; split; [reflexivity|constructor]|].
    eapply runs_bind; [exact Hrun|].
    intros r n1 [-> Hn1].
    eapply runs_weaken; [apply main_epilogue_quiet|].
    intros b n2 [-> Hn2]. split; [reflexivity | apply only_app; assumption]. }
  destruct (R w) as (new & T & E & Q). exists new. auto.
Qed.

Lemma bad_depth_rejected_before_setup_witness :
  ((("noscale" = "scale" /\ (3 <= List.length ["8"])%nat /\
     bad_depth (atoi (arg ["8"] 2)) = true) \/
    (("noscale" = "autoscale" \/ "noscale" = "noscale") /\
     (1 <= List.length ["8"])%nat /\
     bad_depth (atoi (arg ["8"] 0)) = true))) /\
  fst (main a20_board ["sunxi_hdmi_fb"; "noscale"; "8"] initial_world) = 1.
Proof.
  assert (H : ("noscale" = "scale" /\ (3 <= List.length ["8"])%nat /\
               bad_depth (atoi (arg ["8"] 2)) = true) \/
              (("noscale" = "autoscale" \/ "noscale" = "noscale") /\
               (1 <= List.length ["8"])%nat /\
               bad_depth (atoi (arg ["8"] 0)) = true)).
  { right. split; [right; reflexivity|]. split; [apply le_n | reflexivity]. }
  split; [exact H|].
  destruct (proj1 (bad_depth_rejected_before_setup
                     a20_board initial_world "sunxi_hdmi_fb" "noscale" ["8"] H))
    as (new & _ & E & _).
  exact E.
Defined.

(** C4 as stated fails: [noscale 8] is rejected only after the display
    has been asked for the screen size. *)
Lemma noscale_bad_depth_after_device_calls :
  bad_depth (atoi "8") = true /\
  ~ (fst (main a20_board ["sunxi_hdmi_fb"; "noscale"; "8"] initial_world) <> 0 /\
     forall e,
       In e (trace (snd (main a20_board ["sunxi_hdmi_fb"; "noscale"; "8"]
                              initial_world))) ->
       is_device_call (fst e) = false).
Proof.
  split; [reflexivity|].
  intros [_ H].
  specialize (H (SysIoctl 3 DE1_CMD_SCN_GET_WIDTH (ArgWords 0 0 0 0), reply_of 1280)).
  assert (D : is_device_call (SysIoctl 3 DE1_CMD_SCN_GET_WIDTH (ArgWords 0 0 0 0))
              = false).
  { apply H. vm_compute. right. right. left. reflexivity. }
  discriminate D.
Qed.

(** [fb set] does not look at the depth at all: a depth of 8 is written
    to the framebuffer and the command succeeds. *)
Lemma fb_set_depth_unchecked :
  let run := main a20_board ["sunxi_hdmi_fb"; "fb"; "set"; "640x480x8"] initial_world in
  fst run = 0 /\
  exists v r,
    In (SysIoctl 4 FBIOPUT_VSCREENINFO (ArgVarInfo v), r) (trace (snd run)) /\
    bits_per_pixel v = 8.
Proof.
  cbv zeta. split; [reflexivity|].
  eexists. eexists. split.
  - vm_compute. do 4 right. left. reflexivity.
  - reflexivity.
Qed.

(** ** Exit codes *)










Ltac unfold_calls :=
  unfold show_info, get_output_type, hdmi_get_hpd, hdmi_get_mode,
    hdmi_mode_supported, get_screen_size, get_fb_info, read_hdmi_state,
    de1_get_output_type, de2_get_output_type, de1_hdmi_get_hpd,
    de2_hdmi_get_hpd, de1_hdmi_get_mode, de2_hdmi_get_mode,
    de1_hdmi_mode_supported, de2_hdmi_mode_supported,
    de1_get_screen_size, de2_get_screen_size,
    de1_hdmi_off, de1_hdmi_on, de1_hdmi_set_mode, de2_device_switch,
    de1_fb_release, de1_fb_request, close_fb_fd,
    disp_ioctl, disp_close, show_debug_info.




















Lemma ret_exit_zero_or_one (b : bool) :
  runs (if b then ret 0 else ret 1) exit_code_ok.
Proof. destruct b; apply runs_ret; [left | right; left]; reflexivity. Qed.











Lemma keeps_disp_fd_ret {A} (a : A) : keeps_disp_fd (ret a).
Proof. intros w. reflexivity. Qed.

Lemma keeps_disp_fd_gets {A} (f : world -> A) : keeps_disp_fd (gets f).
Proof. intros w. reflexivity. Qed.

Lemma keeps_disp_fd_sys (env : oracle) (c : syscall) : keeps_disp_fd (sys env c).
Proof. intros w. reflexivity. Qed.

Lemma keeps_disp_fd_bind {A B} (m : M A) (k : A -> M B) :
  keeps_disp_fd m -> (forall a, keeps_disp_fd (k a)) -> keeps_disp_fd (bind m k).
Proof.
  intros Hm Hk w. unfold bind. specialize (Hm w).
  destruct (m w) as [a w1]. cbn in Hm. rewrite <- Hm. apply Hk.
Qed.

Lemma detect_de_version_keeps_fd (env : oracle) (fd : Z) :
  keeps_disp_fd (detect_de_version env fd).
Proof.
  unfold detect_de_version, detect_soc_from_cpuinfo, detect_by_ioctl_probe, ioctl.
  repeat match goal with
         | |- keeps_disp_fd (ret _) => apply keeps_disp_fd_ret
         | |- keeps_disp_fd (gets _) => apply keeps_disp_fd_gets
         | |- keeps_disp_fd (sys _ _) => apply keeps_disp_fd_sys
         | |- keeps_disp_fd (bind _ _) => apply keeps_disp_fd_bind; [|intros]
         | |- keeps_disp_fd (if ?c then _ else _) => destruct c
         | |- keeps_disp_fd (match ?x with _ => _ end) => destruct x
         end.
Qed.





(** The other failing operations do the same: a scale request the driver
    rejects. *)
Example scale_failure_exit_code :
  fst (main a20_board_request_refused
            ["sunxi_hdmi_fb"; "scale"; "640x480"; "1280x720"; "32"] initial_world)
    = -1.
Proof. reflexivity. Qed.

(** ** Zero dimensions *)

(** C9 fails on the code: a setup request with a zero source size is not
    rejected.  On generation 1 the release and the request, carrying
    width 0 and height 0, go to the driver and the setup succeeds when the
    driver accepts; on generation 2 the zero geometry is written to the
    framebuffer.  The [scale] command passes such sizes on. *)
Theorem zero_dimensions_reach_the_driver :
  (let run := setup_fb_with_scaling a20_board 0 0 0 1280 720 32 a20_open_world in
   fst run = 0 /\
   map fst (trace (snd run)) =
     [SysIoctl 3 DE1_CMD_FB_RELEASE (ArgWords 0 0 0 0);
      SysIoctl 3 DE1_CMD_FB_REQUEST
        (ArgFbPara 0 (fb_request_para DE1_LAYER_WORK_MODE_SCALER 0 0 1280 720 0))]) /\
  (let run := setup_fb_with_scaling h3_board 0 0 0 1280 720 32 h3_open_world in
   fst run = 0 /\
   exists v r,
     In (SysIoctl 4 FBIOPUT_VSCREENINFO (ArgVarInfo v), r) (trace (snd run)) /\
     xres v = 0 /\ yres v = 0) /\
  parse_resolution "0x0" uninit uninit = (0, (0, 0, 0)) /\
  fst (main a20_board ["sunxi_hdmi_fb"; "scale"; "0x0"; "1280x720"; "32"]
            initial_world) = 0.
Proof.
  split; [split; reflexivity|].
  split; [|split; reflexivity].
  cbv zeta. split; [reflexivity|].
  eexists. eexists. split.
  - vm_compute. do 2 right. left. reflexivity.
  - split; reflexivity.
Qed.


(** * Further properties of the program *)

(** ** Mode catalog lookups *)

(** A scan that finds nothing has met no hit before the sentinel. *)
Lemma table_scan_none (hit : string -> mode_info_t -> bool) tbl i0 :
  table_scan hit tbl i0 = None ->
  forall k n,
    (forall j, (j <= k)%nat -> mi_name (nth j tbl mode_sentinel) <> None) ->
    mi_name (nth k tbl mode_sentinel) = Some n ->
    hit n (nth k tbl mode_sentinel) = false.
Proof.
  revert i0. induction tbl as [|e tbl IH]; intros i0 H k n Hall Hn.
  - destruct k; discriminate Hn.
  - cbn [table_scan] in H.
    destruct (mi_name e) as [m|] eqn:En.
    + destruct (hit m e) eqn:Eh; [discriminate|].
      destruct k as [|k]; cbn [nth] in Hn |- *.
      * rewrite En in Hn. injection Hn as <-. exact Eh.
      * apply (IH _ H k n); [|exact Hn].
        intros j Hj. apply (Hall (S j)). lia.
    + exfalso. apply (Hall 0%nat); [lia | exact En].
Qed.

Lemma mode_at_named (i : nat) :
  mi_name (mode_at i) <> None <-> (i < mode_count)%nat.
Proof.
  unfold mode_count. split.
  - intros H. do 16 (destruct i as [|i]; [lia|]).
    exfalso. apply H. destruct i as [|i]; [reflexivity|].
    unfold mode_at, mode_table. cbn. destruct i; reflexivity.
  - intros H. do 16 (destruct i as [|i]; [discriminate|]). lia.
Qed.

(** X1: the lookup by resolution is sound and complete: an entry it
    returns is a real entry (not the sentinel) with the queried width and
    height, with the queried refresh unless that is 0, and it is the first
    such entry; when it returns NULL no entry of the table fits. *)
Theorem find_mode_by_resolution_sound_complete (w h r : Z) :
  match find_mode_by_resolution w h r with
  | Some i =>
      (i < mode_count)%nat /\
      mi_width (mode_at i) = w /\ mi_height (mode_at i) = h /\
      (r = 0 \/ mi_refresh (mode_at i) = r) /\
      forall j, (j < i)%nat ->
        ~ (mi_width (mode_at j) = w /\ mi_height (mode_at j) = h /\
           (r = 0 \/ mi_refresh (mode_at j) = r))
  | None =>
      forall j, (j < mode_count)%nat ->
        ~ (mi_width (mode_at j) = w /\ mi_height (mode_at j) = h /\
           (r = 0 \/ mi_refresh (mode_at j) = r))
  end.
Proof.
  assert (Hit : forall e,
             (if (mi_width e =? w) && (mi_height e =? h)
              then (r =? 0) || (mi_refresh e =? r) else false) = true <->
             (mi_width e = w /\ mi_height e = h /\ (r = 0 \/ mi_refresh e = r))).
  { intros e.
    destruct (Z.eqb_spec (mi_width e) w), (Z.eqb_spec (mi_height e) h);
      cbn [andb]; try (split; [discriminate | tauto]).
    destruct (Z.eqb_spec r 0), (Z.eqb_spec (mi_refresh e) r); cbn [orb];
      split; try tauto; try discriminate. }
  destruct (find_mode_by_resolution w h r) as [i|] eqn:F;
    unfold find_mode_by_resolution in F.
  - destruct (table_scan_first _ _ _ _ F) as (k & n & Hi & Hn & Hh & Hf).
    cbn in Hi. subst k. fold (mode_at i) in Hn, Hh.
    apply Hit in Hh. destruct Hh as (Hw & Hh & Hr).
    split; [apply mode_at_named; congruence|].
    repeat split; auto.
    intros j Hj Hm. destruct (Hf j Hj) as (m & _ & Hm').
    fold (mode_at j) in Hm'. apply Hit in Hm. congruence.
  - intros j Hj Hm. apply Hit in Hm.
    destruct (mi_name (mode_at j)) as [n|] eqn:En.
    + pose proof (table_scan_none _ _ _ F j n) as N.
      fold (mode_at j) in N. rewrite N in Hm; [discriminate| |exact En].
      intros j' Hj'. apply mode_at_named. lia.
    + apply mode_at_named in Hj. congruence.
Qed.

(** X2: the lookup by identifier inverts the table: every entry is found
    under its own identifier, whatever is found carries the identifier
    asked for, and the invalid mode -1 is not found although the sentinel
    carries it. *)
Theorem get_mode_info_inverts_table :
  (forall i, (i < mode_count)%nat ->
     get_mode_info (mi_mode (mode_at i)) = Some i) /\
  (forall m i, get_mode_info m = Some i ->
     (i < mode_count)%nat /\ mi_mode (mode_at i) = m) /\
  mi_mode (mode_at mode_count) = -1 /\
  get_mode_info (-1) = None.
Proof.
  split; [|split; [|split; reflexivity]].
  - intros i Hi. unfold mode_count in Hi.
    do 16 (destruct i as [|i]; [reflexivity|]). lia.
  - intros m i F. unfold get_mode_info in F.
    destruct (table_scan_first _ _ _ _ F) as (k & n & Hi & Hn & Hh & _).
    cbn in Hi. subst k. fold (mode_at i) in Hn, Hh.
    split; [apply mode_at_named; congruence | apply Z.eqb_eq; exact Hh].
Qed.

(** ** Opening and closing the display *)

Lemma detect_de_version_resolved (env : oracle) (fd : Z) (w : world) :
  fst (detect_de_version env fd w) <> DE_VERSION_UNKNOWN.
Proof.
  unfold detect_de_version, bind.
  destruct (detect_soc_from_cpuinfo env w) as [v w1].
  destruct v; [|cbn; congruence|cbn; congruence].
  cbv beta iota delta [negb de_version_eqb].
  destruct (detect_by_ioctl_probe env fd w1) as [v2 w2].
  destruct v2; cbn; congruence.
Qed.

(** *** Frame rules *)

Lemma preserves_ret {A B} (f : world -> B) (a : A) : preserves f (ret a).
Proof. intros w. reflexivity. Qed.

Lemma preserves_gets {A B} (f : world -> B) (g : world -> A) :
  preserves f (gets g).
Proof. intros w. reflexivity. Qed.

Lemma preserves_modify {B} (f : world -> B) (g : world -> world) :
  (forall w, f (g w) = f w) -> preserves f (modify g).
Proof. intros H w. apply H. Qed.

Lemma preserves_sys {B} (f : world -> B) (env : oracle) (c : syscall) :
  (forall r w, f (record_call c r w) = f w) -> preserves f (sys env c).
Proof. intros H w. apply H. Qed.

Lemma preserves_bind {A C B} (f : world -> B) (m : M A) (k : A -> M C) :
  preserves f m -> (forall a, preserves f (k a)) -> preserves f (bind m k).
Proof.
  intros Hm Hk w. unfold bind. specialize (Hm w).
  destruct (m w) as [a w1]. cbn in Hm. rewrite <- Hm. apply Hk.
Qed.

Ltac preserves_step :=
  match goal with
  | |- preserves _ (ret _) => apply preserves_ret
  | |- preserves _ (gets _) => apply preserves_gets
  | |- preserves _ (modify _) => apply preserves_modify; intros; reflexivity
  | |- preserves _ (sys _ _) => apply preserves_sys; intros; reflexivity
  | |- preserves _ (ioctl _ _ _ _) => apply preserves_sys; intros; reflexivity
  | |- preserves _ (bind _ _) => apply preserves_bind; [|intros]
  | |- preserves _ (if ?c then _ else _) => destruct c
  | |- preserves _ (match ?x with _ => _ end) => destruct x
  | |- preserves _ (let (_, _) := ?x in _) => destruct x
  end.

(** Solves a frame goal for a computation built from the calls below. *)
Ltac framed :=
  solve [repeat (unfold_calls;
                 unfold detect_de_version, detect_soc_from_cpuinfo,
                   detect_by_ioctl_probe, de1_hdmi_init, de2_hdmi_init,
                   de2_hdmi_off, hdmi_init, hdmi_off,
                   de1_setup_fb_with_scaling, de2_setup_fb_with_scaling,
                   setup_fb_with_scaling, get_fb_info;
                 preserves_step)].

Lemma detect_de_version_keeps_version (env : oracle) (fd : Z) :
  preserves g_de_version (detect_de_version env fd).
Proof. framed. Qed.

(** X3: [disp_open] on a closed display issues the open; when that fails
    it returns -1 having made no other call and leaves the generation as
    it was; when it succeeds it returns 0 with the descriptor stored and
    the generation resolved to Gen1 or Gen2, and a further [disp_open]
    then does nothing at all. *)
Theorem disp_open_outcomes (env : oracle) (w : world) :
  g_disp_fd w < 0 ->
  let c_open := SysOpen DISP_DEV O_RDWR in
  let r_open := env (trace w) c_open in
  let result := fst (disp_open env w) in
  let w' := snd (disp_open env w) in
  g_disp_fd w' = r_ret r_open /\
  (r_ret r_open < 0 ->
     result = -1 /\ g_de_version w' = g_de_version w /\
     trace w' = trace w ++ [(c_open, r_open)]) /\
  (0 <= r_ret r_open ->
     result = 0 /\ g_de_version w' <> DE_VERSION_UNKNOWN /\
     disp_open env w' = (0, w')).
Proof.
  intros Hclosed. cbv zeta.
  set (r := env (trace w) (SysOpen DISP_DEV O_RDWR)).
  set (w1 := set_disp_fd (r_ret r) (record_call (SysOpen DISP_DEV O_RDWR) r w)).
  assert (E : disp_open env w =
              if r_ret r <? 0 then (-1, w1)
              else (0, set_de_version (fst (detect_de_version env (r_ret r) w1))
                                      (snd (detect_de_version env (r_ret r) w1)))).
  { unfold disp_open, bind, gets, modify, ret, sys.
    apply Z.leb_gt in Hclosed. rewrite Hclosed. cbn [fst snd]. fold r. fold w1.
    destruct (r_ret r <? 0); [reflexivity|].
    destruct (detect_de_version env (r_ret r) w1); reflexivity. }
  rewrite E.
  pose proof (detect_de_version_keeps_fd env (r_ret r) w1) as K.
  pose proof (detect_de_version_keeps_version env (r_ret r) w1) as V.
  pose proof (detect_de_version_resolved env (r_ret r) w1) as R.
  destruct (Z.ltb_spec (r_ret r) 0) as [F|F]; cbn [fst snd].
  - split; [reflexivity|]. split; [intros _ | intros H; exfalso; lia].
    repeat split; reflexivity.
  - destruct (detect_de_version env (r_ret r) w1) as [v w2].
    cbn [fst snd] in K, R |- *. cbn [set_de_version g_disp_fd g_de_version].
    split; [exact K|]. split; [intros H; exfalso; lia|]. intros _.
    split; [reflexivity|]. split; [exact R|].
    unfold disp_open, bind, gets, ret. cbn [set_de_version g_disp_fd].
    rewrite K. change (g_disp_fd w1) with (r_ret r).
    apply Z.leb_le in F. rewrite F. reflexivity.
Qed.

Lemma disp_open_outcomes_witness :
  g_disp_fd initial_world < 0 /\
  fst (disp_open a20_board initial_world) = 0 /\
  g_de_version (snd (disp_open a20_board initial_world)) <> DE_VERSION_UNKNOWN.
Proof.
  assert (H : g_disp_fd initial_world < 0) by (cbn; lia).
  split; [exact H|].
  destruct (disp_open_outcomes a20_board initial_world H) as (_ & _ & S).
  destruct (S ltac:(cbn; lia)) as (R & V & _).
  split; [exact R | exact V].
Defined.

(** X4: [disp_close] closes the display exactly when it is open, leaves
    the descriptor variable negative in every case, and is idempotent: a
    second [disp_close] issues nothing. *)
Theorem disp_close_idempotent (env : oracle) (w : world) :
  let w' := snd (disp_close env w) in
  g_disp_fd w' < 0 /\
  disp_close env w' = (tt, w') /\
  (0 <= g_disp_fd w ->
     g_disp_fd w' = -1 /\
     trace w' = trace w ++ [(SysClose (g_disp_fd w),
                             env (trace w) (SysClose (g_disp_fd w)))]) /\
  (g_disp_fd w < 0 -> w' = w).
Proof.
  cbv zeta. unfold disp_close, bind, gets, modify, ret, sys.
  destruct (Z.leb_spec 0 (g_disp_fd w)) as [L|L]; cbn.
  - split; [lia|]. split; [reflexivity|]. split; [auto | intros H; exfalso; lia].
  - split; [exact L|]. apply Z.leb_gt in L. rewrite L.
    split; [reflexivity|]. split; [intros H; exfalso; apply Z.leb_gt in L; lia | auto].
Qed.



(** ** Backend operations on an open display *)

Ltac with_open Efd := repeat (progress (cbn; rewrite ?Efd)).

(** X6: with the display open and the generation resolved,
    [get_screen_size] asks for the width and then the height with the
    command codes of that generation.  A failing width query ends it with
    -1, the height not asked for and both outputs untouched; a failing
    height query gives -1 with the width already stored; otherwise it
    returns 0 with both values as 32-bit unsigned numbers. *)
Theorem get_screen_size_outcomes (env : oracle) (w : world) (width height : Z) :
  0 <= g_disp_fd w -> g_de_version w <> DE_VERSION_UNKNOWN ->
  let de1 := de_version_eqb (g_de_version w) DE_VERSION_1 in
  let c_w := SysIoctl (g_disp_fd w)
               (if de1 then DE1_CMD_SCN_GET_WIDTH else DE2_CMD_GET_SCN_WIDTH)
               (ArgWords (g_screen w) 0 0 0) in
  let c_h := SysIoctl (g_disp_fd w)
               (if de1 then DE1_CMD_SCN_GET_HEIGHT else DE2_CMD_GET_SCN_HEIGHT)
               (ArgWords (g_screen w) 0 0 0) in
  let r_w := env (trace w) c_w in
  let r_h := env (trace w ++ [(c_w, r_w)]) c_h in
  get_screen_size env width height w =
    if r_ret r_w <? 0 then ((-1, (width, height)), record_call c_w r_w w)
    else if r_ret r_h <? 0
         then ((-1, (to_u32 (r_ret r_w), height)),
               record_call c_h r_h (record_call c_w r_w w))
         else ((0, (to_u32 (r_ret r_w), to_u32 (r_ret r_h))),
               record_call c_h r_h (record_call c_w r_w w)).
Proof.
  intros Hfd Hv.
  destruct w as [v fd fbfd scr verb force e t]. cbn in Hfd, Hv |- *.
  assert (Efd : (fd <? 0) = false) by (apply Z.ltb_ge; exact Hfd).
  unfold_prog.
  destruct v; [contradiction | |]; with_open Efd;
    (match goal with |- context [if ?c <? 0 then _ else _] =>
       destruct (c <? 0) end; with_open Efd; [reflexivity|]);
    (match goal with |- context [if ?c <? 0 then _ else _] =>
       destruct (c <? 0) end; with_open Efd; reflexivity).
Qed.

Lemma get_screen_size_outcomes_witness :
  0 <= g_disp_fd a20_open_world /\
  g_de_version a20_open_world <> DE_VERSION_UNKNOWN /\
  fst (get_screen_size a20_board 0 0 a20_open_world) = (0, (1280, 720)).
Proof.
  assert (Hfd : 0 <= g_disp_fd a20_open_world) by (cbn; lia).
  assert (Hv : g_de_version a20_open_world <> DE_VERSION_UNKNOWN)
    by (cbn; discriminate).
  split; [exact Hfd|]. split; [exact Hv|].
  rewrite (get_screen_size_outcomes a20_board a20_open_world 0 0 Hfd Hv).
  reflexivity.
Defined.

(** X7: with the display open, generation-2 HDMI initialization without
    force first asks whether the mode is supported and on a non-positive
    answer returns -1 having issued nothing else; with force, or on a
    positive answer, it issues one device switch to output type HDMI (4)
    with the mode, and returns what that returned.  [de2_hdmi_off] is the
    one device switch to output type none with mode 0. *)
Theorem de2_hdmi_init_sequence (env : oracle) (w : world) (mode : disp_tv_mode) :
  0 <= g_disp_fd w ->
  let fd := g_disp_fd w in
  let scr := g_screen w in
  let c_sup := SysIoctl fd DE2_CMD_HDMI_SUPPORT_MODE (ArgWords scr (to_u32 mode) 0 0) in
  let c_sw := SysIoctl fd DE2_CMD_DEVICE_SWITCH (ArgWords scr 4 (to_u32 mode) 0) in
  let c_off := SysIoctl fd DE2_CMD_DEVICE_SWITCH (ArgWords scr 0 0 0) in
  let r_sup := env (trace w) c_sup in
  let asked := if g_force w =? 0 then [(c_sup, r_sup)] else [] in
  let r_sw := env (trace w ++ asked) c_sw in
  (g_force w = 0 /\ r_ret r_sup <= 0 ->
     de2_hdmi_init env mode w = (-1, record_call c_sup r_sup w)) /\
  (g_force w <> 0 \/ 0 < r_ret r_sup ->
     fst (de2_hdmi_init env mode w) = r_ret r_sw /\
     trace (snd (de2_hdmi_init env mode w)) = trace w ++ asked ++ [(c_sw, r_sw)]) /\
  de2_hdmi_off env w = (r_ret (env (trace w) c_off),
                        record_call c_off (env (trace w) c_off) w).
Proof.
  intros Hfd.
  destruct w as [v fd fbfd scr verb force e t]. cbn in Hfd |- *.
  assert (Efd : (fd <? 0) = false) by (apply Z.ltb_ge; exact Hfd).
  unfold_prog.
  split; [|split].
  - intros [-> S]. with_open Efd.
    destruct (Z.ltb_spec 0 (r_ret (env t (SysIoctl fd DE2_CMD_HDMI_SUPPORT_MODE
                                            (ArgWords scr (to_u32 mode) 0 0)))))
      as [P|P]; [exfalso; lia|]. with_open Efd. reflexivity.
  - intros H.
    destruct (Z.eqb_spec force 0) as [F|F]; with_open Efd.
    + destruct (Z.ltb_spec 0 (r_ret (env t (SysIoctl fd DE2_CMD_HDMI_SUPPORT_MODE
                                              (ArgWords scr (to_u32 mode) 0 0)))))
        as [P|P]; [|exfalso; destruct H as [H|H]; [contradiction | absurd_order]].
      with_open Efd. rewrite <- app_assoc. split; reflexivity.
    + rewrite app_nil_r. split; reflexivity.
  - with_open Efd. reflexivity.
Qed.

Lemma de2_hdmi_init_sequence_witness :
  0 <= g_disp_fd h3_open_world /\
  fst (de2_hdmi_init h3_board 5 h3_open_world) = 0 /\
  List.length (trace (snd (de2_hdmi_init h3_board 5 h3_open_world))) = 2%nat.
Proof.
  assert (Hfd : 0 <= g_disp_fd h3_open_world) by (cbn; lia).
  split; [exact Hfd|].
  pose proof (de2_hdmi_init_sequence h3_board h3_open_world 5 Hfd) as H.
  cbv zeta in H. destruct H as (_ & H & _).
  destruct (H (or_intror (eq_refl : (0 ?= 1) = Lt))) as [R T].
  split; [exact R | rewrite T; reflexivity].
Defined.

(** X8: on generation 1 with the display open, [hdmi_on] first tries the
    plain enable and returns its value when that does not fail.  When it
    fails, the fallback never asks whether the mode is supported, whatever
    the force flag: it issues disable, set-mode with the default mode 4
    (720p50) and, unless set-mode failed, enable again, whose value is
    the result; a failing set-mode gives -1. *)
Theorem hdmi_on_de1_fallback (env : oracle) (w : world) :
  0 <= g_disp_fd w -> g_de_version w = DE_VERSION_1 ->
  let fd := g_disp_fd w in
  let scr := g_screen w in
  let c_on := SysIoctl fd DE1_CMD_HDMI_ON (ArgWords scr 0 0 0) in
  let c_off := SysIoctl fd DE1_CMD_HDMI_OFF (ArgWords scr 0 0 0) in
  let c_set := SysIoctl fd DE1_CMD_HDMI_SET_MODE (ArgWords scr 4 0 0) in
  let r_on := env (trace w) c_on in
  let r_off := env (trace w ++ [(c_on, r_on)]) c_off in
  let r_set := env (trace w ++ [(c_on, r_on); (c_off, r_off)]) c_set in
  let r_on2 := env (trace w ++ [(c_on, r_on); (c_off, r_off); (c_set, r_set)]) c_on in
  let result := fst (hdmi_on env w) in
  let issued := trace (snd (hdmi_on env w)) in
  (0 <= r_ret r_on ->
     result = r_ret r_on /\ issued = trace w ++ [(c_on, r_on)]) /\
  (r_ret r_on < 0 -> r_ret r_set < 0 ->
     result = -1 /\
     issued = trace w ++ [(c_on, r_on); (c_off, r_off); (c_set, r_set)]) /\
  (r_ret r_on < 0 -> 0 <= r_ret r_set ->
     result = r_ret r_on2 /\
     issued = trace w ++ [(c_on, r_on); (c_off, r_off); (c_set, r_set);
                          (c_on, r_on2)]).
Proof.
  intros Hfd Hv.
  destruct w as [v fd fbfd scr verb force e t]. cbn in Hfd, Hv |- *. subst v.
  assert (Efd : (fd <? 0) = false) by (apply Z.ltb_ge; exact Hfd).
  unfold_prog. with_open Efd.
  destruct (Z.ltb_spec (r_ret (env t (SysIoctl fd DE1_CMD_HDMI_ON (ArgWords scr 0 0 0)))) 0)
    as [L|L]; with_open Efd.
  - split; [intros H; exfalso; lia|].
    repeat rewrite <- app_assoc. cbn [app].
    match goal with |- context [if ?c <? 0 then _ else _] =>
      destruct (Z.ltb_spec c 0) as [S|S] end; with_open Efd;
      repeat rewrite <- app_assoc; cbn [app].
    + split; [intros _ _; split; reflexivity | intros _ H; absurd_order].
    + split; [intros _ H; absurd_order | intros _ _; split; reflexivity].
  - split; [intros _; split; reflexivity|].
    split; intros H; exfalso; lia.
Qed.

Lemma hdmi_on_de1_fallback_witness :
  0 <= g_disp_fd a20_open_world /\
  g_de_version a20_open_world = DE_VERSION_1 /\
  fst (hdmi_on a20_board a20_open_world) = 0.
Proof.
  assert (Hfd : 0 <= g_disp_fd a20_open_world) by (cbn; lia).
  split; [exact Hfd|]. split; [reflexivity|].
  pose proof (hdmi_on_de1_fallback a20_board a20_open_world Hfd eq_refl) as H.
  cbv zeta in H. destruct H as (H & _).
  exact (proj1 (H (fun E : (0 ?= 0) = Gt => ltac:(discriminate E)))).
Defined.

(** X9: on generation 2 with the display open, [hdmi_on] reads the
    current output, and switches the device to HDMI with the mode read,
    or with the default mode 4 (720p50) when the read failed or gave a
    mode of 1 (576i) or less.  It never asks whether the mode is
    supported, whatever the force flag, and returns what the switch
    returned. *)
Theorem hdmi_on_de2_mode_choice (env : oracle) (w : world) :
  0 <= g_disp_fd w -> g_de_version w = DE_VERSION_2 ->
  let fd := g_disp_fd w in
  let scr := g_screen w in
  let c_get := SysIoctl fd DE2_CMD_GET_OUTPUT
                        (ArgOutput scr {| out_type := 0; out_mode := 0 |}) in
  let r_get := env (trace w) c_get in
  let current := if r_ret r_get <? 0 then -1
                 else to_s32 (out_mode (r_output r_get)) in
  let chosen := if current <=? 1 then DEFAULT_HDMI_MODE else current in
  let c_sw := SysIoctl fd DE2_CMD_DEVICE_SWITCH (ArgWords scr 4 (to_u32 chosen) 0) in
  let r_sw := env (trace w ++ [(c_get, r_get)]) c_sw in
  fst (hdmi_on env w) = r_ret r_sw /\
  trace (snd (hdmi_on env w)) = trace w ++ [(c_get, r_get); (c_sw, r_sw)].
Proof.
  intros Hfd Hv.
  destruct w as [v fd fbfd scr verb force e t]. cbn in Hfd, Hv |- *. subst v.
  assert (Efd : (fd <? 0) = false) by (apply Z.ltb_ge; exact Hfd).
  unfold_prog. with_open Efd.
  set (r_get := env t (SysIoctl fd DE2_CMD_GET_OUTPUT
                         (ArgOutput scr {| out_type := 0; out_mode := 0 |}))).
  assert (C : forall m : Z,
             (if (m <=? 0) || (m =? DISP_TV_MOD_480I) || (m =? DISP_TV_MOD_576I)
              then DEFAULT_HDMI_MODE else m) =
             (if m <=? 1 then DEFAULT_HDMI_MODE else m)).
  { intros m. unfold DISP_TV_MOD_480I, DISP_TV_MOD_576I.
    destruct (Z.leb_spec m 0), (Z.eqb_spec m 0), (Z.eqb_spec m 1),
      (Z.leb_spec m 1); cbn; try reflexivity; exfalso; lia. }
  destruct (r_ret r_get <? 0); with_open Efd;
    rewrite ?C; repeat rewrite <- app_assoc; split; reflexivity.
Qed.

Lemma hdmi_on_de2_mode_choice_witness :
  0 <= g_disp_fd h3_open_world /\
  g_de_version h3_open_world = DE_VERSION_2 /\
  map fst (trace (snd (hdmi_on h3_board h3_open_world))) =
    [SysIoctl 3 DE2_CMD_GET_OUTPUT (ArgOutput 0 {| out_type := 0; out_mode := 0 |});
     SysIoctl 3 DE2_CMD_DEVICE_SWITCH (ArgWords 0 4 5 0)].
Proof.
  assert (Hfd : 0 <= g_disp_fd h3_open_world) by (cbn; lia).
  split; [exact Hfd|]. split; [reflexivity|].
  destruct (hdmi_on_de2_mode_choice h3_board h3_open_world Hfd eq_refl) as [_ T].
  rewrite T. reflexivity.
Defined.

(** ** Framebuffer set-up *)

(** X10: with the display open, the generation-1 setup releases the
    framebuffer and, whatever the release returned, requests it anew; the
    request carries the given sizes unchanged and work mode scaler (4)
    exactly when source and destination sizes differ; only a failing
    request makes the setup fail.  The depth plays no part. *)
Theorem de1_setup_work_mode
        (env : oracle) (w : world) (fb_id fb_w fb_h scn_w scn_h depth : Z) :
  0 <= g_disp_fd w ->
  exists para r_rel r_req,
    trace (snd (de1_setup_fb_with_scaling env fb_id fb_w fb_h scn_w scn_h depth w))
      = trace w ++ [(SysIoctl (g_disp_fd w) DE1_CMD_FB_RELEASE (ArgWords fb_id 0 0 0),
                     r_rel);
                    (SysIoctl (g_disp_fd w) DE1_CMD_FB_REQUEST (ArgFbPara fb_id para),
                     r_req)] /\
    fst (de1_setup_fb_with_scaling env fb_id fb_w fb_h scn_w scn_h depth w)
      = (if r_ret r_req <? 0 then -1 else 0) /\
    width para = fb_w /\ height para = fb_h /\
    output_width para = scn_w /\ output_height para = scn_h /\
    buffer_num para = 1 /\ primary_screen_id para = g_screen w /\
    (mode para = DE1_LAYER_WORK_MODE_SCALER <-> (fb_w <> scn_w \/ fb_h <> scn_h)) /\
    (mode para = DE1_LAYER_WORK_MODE_NORMAL <-> (fb_w = scn_w /\ fb_h = scn_h)) /\
    forall depth',
      de1_setup_fb_with_scaling env fb_id fb_w fb_h scn_w scn_h depth' w =
      de1_setup_fb_with_scaling env fb_id fb_w fb_h scn_w scn_h depth w.
Proof.
  intros Hfd.
  pose proof (de1_setup_fb_with_scaling_calls env w fb_id fb_w fb_h scn_w scn_h) as H.
  cbv zeta in H.
  eexists. eexists. eexists.
  rewrite (H depth Hfd). cbn [fst snd record_call trace].
  rewrite <- app_assoc. cbn [app].
  split; [reflexivity|]. split; [reflexivity|].
  cbn [fb_request_para width height output_width output_height buffer_num
       primary_screen_id mode].
  repeat (split; [reflexivity|]).
  unfold DE1_LAYER_WORK_MODE_SCALER, DE1_LAYER_WORK_MODE_NORMAL.
  split; [|split].
  - destruct (Z.eqb_spec fb_w scn_w), (Z.eqb_spec fb_h scn_h); cbn;
      split; try tauto; try discriminate; intros [N|N]; contradiction.
  - destruct (Z.eqb_spec fb_w scn_w), (Z.eqb_spec fb_h scn_h); cbn;
      split; try tauto; try discriminate; intros [N N']; contradiction.
  - intros depth'. rewrite (H depth' Hfd). reflexivity.
Qed.

Lemma de1_setup_work_mode_witness :
  0 <= g_disp_fd a20_open_world /\
  exists para,
    In (SysIoctl 3 DE1_CMD_FB_REQUEST (ArgFbPara 0 para))
       (map fst (trace (snd (de1_setup_fb_with_scaling a20_board 0 640 480 1280 720 32
                                                      a20_open_world)))) /\
    mode para = DE1_LAYER_WORK_MODE_SCALER.
Proof.
  assert (Hfd : 0 <= g_disp_fd a20_open_world) by (cbn; lia).
  split; [exact Hfd|].
  destruct (de1_setup_work_mode a20_board a20_open_world 0 640 480 1280 720 32 Hfd)
    as (para & r_rel & r_req & T & _ & _ & _ & _ & _ & _ & _ & S & _).
  exists para. split.
  - rewrite T. cbn. right. left. reflexivity.
  - apply S. left. discriminate.
Defined.

(** X11: the generation-2 setup opens the framebuffer read-write; when
    the open fails it returns -1 after that one call.  Otherwise every
    path uses only ioctls on the descriptor and ends by closing it.  A
    geometry it writes has the requested size, the virtual height doubled
    (modulo 2^32) for double buffering, and the requested depth; the
    destination size plays no part. *)
Theorem de2_setup_descriptor_and_geometry
        (env : oracle) (w : world) (fb_id fb_w fb_h scn_w scn_h depth : Z) :
  let c_open := SysOpen FB_DEV O_RDWR in
  let r_open := env (trace w) c_open in
  let run := de2_setup_fb_with_scaling env fb_id fb_w fb_h scn_w scn_h depth w in
  exists new,
    trace (snd run) = trace w ++ new /\
    (r_ret r_open < 0 -> fst run = -1 /\ new = [(c_open, r_open)]) /\
    (0 <= r_ret r_open -> bracketed c_open new) /\
    geometry_writes
      (fun v => xres v = fb_w /\ yres v = fb_h /\ xres_virtual v = fb_w /\
                yres_virtual v = to_u32 (fb_h * 2) /\
                bits_per_pixel v = to_u32 depth) new /\
    forall scn_w' scn_h',
      de2_setup_fb_with_scaling env fb_id fb_w fb_h scn_w' scn_h' depth w = run.
Proof.
  cbv zeta.
  destruct w as [v fd fbfd scr verb force e t].
  unfold de2_setup_fb_with_scaling, ioctl, sys, bind, ret. cbn.
  set (r_open := env t (SysOpen FB_DEV O_RDWR)).
  destruct (Z.ltb_spec (r_ret r_open) 0) as [O|O]; cbn.
  - eexists. split; [reflexivity|].
    split; [auto|]. split; [intros H; exfalso; lia|].
    split; [|reflexivity].
    intros fd' v' r' [H|[]]. discriminate H.
  - match goal with |- context [if ?c <? 0 then _ else _] =>
      destruct (c <? 0) end; cbn.
    + eexists. split; [rewrite <- !app_assoc; reflexivity|].
      split; [intros H; exfalso; lia|]. split.
      * intros _. exists r_open. eexists. eexists. split.
        { cbn. f_equal. instantiate (2 := [_]). reflexivity. }
        repeat constructor. eexists. eexists. reflexivity.
      * split; [|reflexivity].
        intros fd' v' r' H. cbn in H.
        destruct H as [H|[H|[H|[]]]]; discriminate H.
    + match goal with |- context [if ?c then _ else _] => destruct c end; cbn.
      * match goal with |- context [if ?c <? 0 then _ else _] =>
          destruct (c <? 0) end; cbn;
        (eexists; split; [rewrite <- !app_assoc; reflexivity|];
         split; [intros H; exfalso; lia|]; split;
         [ intros _; exists r_open; eexists; eexists; split;
           [ cbn; f_equal; instantiate (2 := [_; _]); reflexivity
           | repeat constructor; eexists; eexists; reflexivity ]
         | split; [|reflexivity];
           intros fd' v' r' H; cbn in H;
           destruct H as [H|[H|[H|[H|[]]]]]; try discriminate H;
           injection H as _ <- _;
           unfold set_color_format;
           destruct (depth =? 16); [cbn; auto|];
           destruct ((depth =? 24) || (depth =? 32)); cbn; auto ]).
      * eexists. split; [rewrite <- !app_assoc; reflexivity|].
        split; [intros H; exfalso; lia|]. split.
        { intros _. exists r_open. eexists. eexists. split.
          { cbn. f_equal. instantiate (2 := [_]). reflexivity. }
          repeat constructor. eexists. eexists. reflexivity. }
        split; [|reflexivity].
        intros fd' v' r' H. cbn in H.
        destruct H as [H|[H|[H|[]]]]; discriminate H.
Qed.

Lemma de2_setup_descriptor_and_geometry_witness :
  bracketed (SysOpen FB_DEV O_RDWR)
            (trace (snd (de2_setup_fb_with_scaling h3_board 0 640 480 1280 720 32
                                                   h3_open_world))).
Proof.
  destruct (de2_setup_descriptor_and_geometry h3_board h3_open_world
              0 640 480 1280 720 32) as (new & T & _ & B & _).
  cbv zeta in T, B. rewrite T. apply B. cbn. lia.
Defined.

Lemma bracketed_intro (c_open : syscall) (r_open : reply)
      (mid : list event) (r_close : reply) :
  Forall (fun e => exists cmd a, fst e = SysIoctl (r_ret r_open) cmd a) mid ->
  bracketed c_open ((c_open, r_open) :: mid ++ [(SysClose (r_ret r_open), r_close)]).
Proof. intros H. exists r_open, mid, r_close. split; [reflexivity | exact H]. Qed.

Ltac bracket :=
  first [ apply (bracketed_intro _ _ [(_, _)] _)
        | apply (bracketed_intro _ _ [(_, _); (_, _)] _)
        | apply (bracketed_intro _ _ [(_, _); (_, _); (_, _)] _) ];
  repeat constructor; eexists; eexists; reflexivity.

(** X12: [fb_configure] returns 0 or -1.  On 0 the framebuffer descriptor
    it opened is left open in [g_fb_fd] for [main] to close; on -1
    [g_fb_fd] is negative, and if the open had succeeded the calls end by
    closing that descriptor.  The geometry it writes has the requested
    size, the virtual size equal to it (no double buffering), and the
    requested depth, whatever that is. *)
Theorem fb_configure_descriptor_and_geometry
        (env : oracle) (w : world) (width height depth : Z) :
  let c_open := SysOpen FB_DEV O_RDWR in
  let r_open := env (trace w) c_open in
  let run := fb_configure env width height depth w in
  exists new,
    trace (snd run) = trace w ++ new /\
    (fst run = 0 \/ fst run = -1) /\
    (fst run = 0 ->
       0 <= r_ret r_open /\ g_fb_fd (snd run) = r_ret r_open /\
       forall fd r, ~ In (SysClose fd, r) new) /\
    (fst run = -1 ->
       g_fb_fd (snd run) < 0 /\ (0 <= r_ret r_open -> bracketed c_open new)) /\
    geometry_writes
      (fun v => xres v = width /\ yres v = height /\ xres_virtual v = width /\
                yres_virtual v = height /\ bits_per_pixel v = to_u32 depth) new.
Proof.
  cbv zeta.
  destruct w as [v fd fbfd scr verb force e t].
  unfold fb_configure, close_fb_fd, ioctl, sys, bind, ret, gets, modify. cbn.
  set (r_open := env t (SysOpen FB_DEV O_RDWR)).
  destruct (Z.ltb_spec (r_ret r_open) 0) as [O|O]; cbn.
  - eexists. split; [reflexivity|]. split; [auto|].
    split; [discriminate|]. split; [intros _; split; [exact O | intros H; exfalso; lia]|].
    intros fd' v' r' [H|[]]. discriminate H.
  - match goal with |- context [if ?c <? 0 then _ else _] =>
      destruct (c <? 0) end; cbn.
    { eexists. split; [rewrite <- !app_assoc; reflexivity|].
      split; [auto|]. split; [discriminate|].
      split; [intros _; split; [lia | intros _; bracket]|].
      intros fd' v' r' H. cbn in H.
      destruct H as [H|[H|[H|[]]]]; discriminate H. }
    match goal with |- context [if ?c <? 0 then _ else _] =>
      destruct (c <? 0) end; cbn.
    { eexists. split; [rewrite <- !app_assoc; reflexivity|].
      split; [auto|]. split; [discriminate|].
      split; [intros _; split; [lia | intros _; bracket]|].
      intros fd' v' r' H. cbn in H.
      destruct H as [H|[H|[H|[H|[]]]]]; try discriminate H.
      injection H as _ <- _.
      unfold set_color_format.
      destruct (depth =? 16); [cbn; auto|].
      destruct ((depth =? 24) || (depth =? 32)); cbn; auto. }
    match goal with |- context [if ?c <? 0 then _ else _] =>
      destruct (c <? 0) end; cbn.
    { eexists. split; [rewrite <- !app_assoc; reflexivity|].
      split; [auto|]. split; [discriminate|].
      split; [intros _; split; [lia | intros _; bracket]|].
      intros fd' v' r' H. cbn in H.
      destruct H as [H|[H|[H|[H|[H|[]]]]]]; try discriminate H.
      injection H as _ <- _.
      unfold set_color_format.
      destruct (depth =? 16); [cbn; auto|].
      destruct ((depth =? 24) || (depth =? 32)); cbn; auto. }
    eexists. split; [rewrite <- !app_assoc; reflexivity|].
    split; [auto|]. split.
    { intros _. split; [exact O|]. split; [reflexivity|].
      intros fd' r' H. cbn in H.
      destruct H as [H|[H|[H|[H|[]]]]]; discriminate H. }
    split; [discriminate|].
    intros fd' v' r' H. cbn in H.
    destruct H as [H|[H|[H|[H|[]]]]]; try discriminate H.
    injection H as _ <- _.
    unfold set_color_format.
    destruct (depth =? 16); [cbn; auto|].
    destruct ((depth =? 24) || (depth =? 32)); cbn; auto.
Qed.

(** X13: [get_fb_info] opens the framebuffer read-only and never writes
    its geometry.  When the open fails it returns -1 after that one call;
    otherwise every path uses only ioctls on the descriptor and ends by
    closing it.  On success the structure handed back is the one the
    driver filled in. *)
Theorem get_fb_info_read_only
        (env : oracle) (w : world) (vinfo0 : fb_var_screeninfo) (want_finfo : bool) :
  let c_open := SysOpen FB_DEV O_RDONLY in
  let r_open := env (trace w) c_open in
  let c_get := SysIoctl (r_ret r_open) FBIOGET_VSCREENINFO ArgVarInfoOut in
  let r_get := env (trace w ++ [(c_open, r_open)]) c_get in
  let run := get_fb_info env vinfo0 want_finfo w in
  exists new,
    trace (snd run) = trace w ++ new /\
    (r_ret r_open < 0 -> fst run = (-1, vinfo0) /\ new = [(c_open, r_open)]) /\
    (0 <= r_ret r_open -> bracketed c_open new) /\
    geometry_writes (fun _ => False) new /\
    (fst (fst run) = 0 -> snd (fst run) = r_vinfo r_get) /\
    (fst (fst run) = 0 \/ fst (fst run) = -1).
Proof.
  cbv zeta.
  destruct w as [v fd fbfd scr verb force e t].
  unfold get_fb_info, ioctl, sys, bind, ret. cbn.
  set (r_open := env t (SysOpen FB_DEV O_RDONLY)).
  destruct (Z.ltb_spec (r_ret r_open) 0) as [O|O]; cbn.
  - eexists. split; [reflexivity|]. split; [auto|].
    split; [intros H; exfalso; lia|].
    split; [intros fd' v' r' [H|[]]; discriminate H|].
    split; [discriminate | auto].
  - match goal with |- context [if ?c <? 0 then _ else _] =>
      destruct (c <? 0) end; cbn.
    { eexists. split; [rewrite <- !app_assoc; reflexivity|].
      split; [intros H; exfalso; lia|]. split; [intros _; bracket|].
      split; [intros fd' v' r' H; cbn in H;
              destruct H as [H|[H|[H|[]]]]; discriminate H|].
      split; [discriminate | auto]. }
    destruct want_finfo; cbn.
    + match goal with |- context [if ?c <? 0 then _ else _] =>
        destruct (c <? 0) end; cbn;
      (eexists; split; [rewrite <- !app_assoc; reflexivity|];
       split; [intros H; exfalso; lia|]; split; [intros _; bracket|];
       split; [intros fd' v' r' H; cbn in H;
               destruct H as [H|[H|[H|[H|[]]]]]; discriminate H|];
       split; [try discriminate; reflexivity | auto]).
    + eexists. split; [rewrite <- !app_assoc; reflexivity|].
      split; [intros H; exfalso; lia|]. split; [intros _; bracket|].
      split; [intros fd' v' r' H; cbn in H;
              destruct H as [H|[H|[H|[]]]]; discriminate H|].
      split; [reflexivity | auto].
Qed.

Lemma get_fb_info_read_only_witness :
  bracketed (SysOpen FB_DEV O_RDONLY)
            (trace (snd (get_fb_info a20_board uninit_vinfo true a20_open_world))).
Proof.
  destruct (get_fb_info_read_only a20_board a20_open_world uninit_vinfo true)
    as (new & T & _ & B & _).
  cbv zeta in T, B. rewrite T. apply B. cbn. lia.
Defined.

(** X14: for the depths 16, 24 and 32 the colour layout both framebuffer
    paths program is packed from bit 0 upwards in the order blue, green,
    red, transparency and fills exactly [depth] bits (RGB565, RGB888,
    ARGB8888); for any other depth the colour fields are left as the
    driver reported them.  The geometry fields, the [msb_right] flags and
    the remaining fields are never touched. *)
Theorem set_color_format_layout (depth : Z) (v : fb_var_screeninfo) :
  let v' := set_color_format depth v in
  (depth = 16 \/ depth = 24 \/ depth = 32 -> packed_bgra depth v') /\
  (depth <> 16 -> depth <> 24 -> depth <> 32 -> v' = v) /\
  xres v' = xres v /\ yres v' = yres v /\
  xres_virtual v' = xres_virtual v /\ yres_virtual v' = yres_virtual v /\
  bits_per_pixel v' = bits_per_pixel v /\ vi_rest v' = vi_rest v /\
  bf_msb_right (red v') = bf_msb_right (red v) /\
  bf_msb_right (green v') = bf_msb_right (green v) /\
  bf_msb_right (blue v') = bf_msb_right (blue v) /\
  bf_msb_right (transp v') = bf_msb_right (transp v).
Proof.
  cbv zeta. unfold set_color_format, packed_bgra.
  destruct (Z.eqb_spec depth 16) as [->|N16];
    [|destruct (Z.eqb_spec depth 24) as [->|N24];
      [|destruct (Z.eqb_spec depth 32) as [->|N32]]];
    cbn; (split; [intros H | split; [intros H16 H24 H32|]]);
    try (exfalso; lia); try reflexivity;
    repeat split; try reflexivity; try (intros; lia).
Qed.

(** ** Hot-plug status *)

(** X15: [hdmi_get_hpd] reads the sysfs switch state first and, when the
    file holds a number, returns it without any ioctl, whatever the
    generation and whether or not the display is open.  On generation 2
    it never issues an ioctl at all: every call it makes is a read of the
    sysfs state. *)
Theorem hdmi_get_hpd_sysfs_first (env : oracle) (w : world) :
  let c := SysReadFile HDMI_STATE in
  let r := env (trace w) c in
  (forall text state,
     r_text r = Some text -> fscanf_d text = Some state ->
     hdmi_get_hpd env w = (state, record_call c r w)) /\
  (g_de_version w = DE_VERSION_2 ->
   exists new,
     trace (snd (hdmi_get_hpd env w)) = trace w ++ new /\
     Forall (fun e => fst e = c) new).
Proof.
  cbv zeta. split.
  - intros text state Ht Hs.
    unfold hdmi_get_hpd, read_hdmi_state, sys, bind, ret. cbn.
    rewrite Ht. cbn. rewrite Hs. reflexivity.
  - intros Hv. destruct w as [v fd fbfd scr verb force e t]. cbn in Hv. subst v.
    unfold hdmi_get_hpd, de2_hdmi_get_hpd, read_hdmi_state, sys, bind, ret, gets.
    cbn.
    destruct (r_text (env t (SysReadFile HDMI_STATE))) as [text|]; cbn;
      [destruct (fscanf_d text); cbn|];
      try (eexists; split; [reflexivity|]; repeat constructor);
      match goal with |- context [r_text ?x] => destruct (r_text x) as [text2|] end;
      cbn; try destruct (fscanf_d text2); cbn;
      eexists; (split; [rewrite <- !app_assoc; reflexivity|]); repeat constructor.
Qed.

Lemma hdmi_get_hpd_sysfs_first_witness :
  hdmi_get_hpd h3_board h3_open_world =
    (1, record_call (SysReadFile HDMI_STATE)
                    (h3_board [] (SysReadFile HDMI_STATE)) h3_open_world).
Proof.
  exact (proj1 (hdmi_get_hpd_sysfs_first h3_board h3_open_world)
               ("1" ++ nl)%string 1 eq_refl eq_refl).
Defined.

(** ** The life of the display descriptor in [main] *)










(** ** Commands that only look *)

Ltac looking :=
  solve [repeat (unfold_calls;
                 unfold detect_de_version, detect_soc_from_cpuinfo,
                   detect_by_ioctl_probe, get_fb_info;
                 confined_step)].







(** ** Setting the mode by number or by name *)

(** X18: a mode of the table can be set by its number or by its name, and
    both do the same: for every table entry, [hdmi mode] with a number
    that strtol reads as the entry's identifier, and [hdmi mode] with the
    entry's name, are both exactly one [hdmi_init] with that identifier. *)
Theorem hdmi_mode_by_number_or_name
        (env : oracle) (i : nat) (n s : string) :
  (i < mode_count)%nat -> mi_name (mode_at i) = Some n ->
  strtol s = (mi_mode (mode_at i), EmptyString) ->
  main_hdmi_mode env s = hdmi_init env (mi_mode (mode_at i)) /\
  main_hdmi_mode env n = hdmi_init env (mi_mode (mode_at i)).
Proof.
  intros Hi Hn Hs. unfold mode_count in Hi.
  unfold main_hdmi_mode. rewrite Hs.
  do 16 (destruct i as [|i];
         [injection Hn as <-; split; reflexivity|]).
  lia.
Qed.

Lemma hdmi_mode_by_number_or_name_witness :
  (5 < mode_count)%nat /\
  main_hdmi_mode a20_board "5" = main_hdmi_mode a20_board "720p60".
Proof.
  assert (H : (5 < mode_count)%nat) by (unfold mode_count; lia).
  split; [exact H|].
  destruct (hdmi_mode_by_number_or_name a20_board 5 "720p60" "5" H eq_refl eq_refl)
    as [A B].
  rewrite A, B. reflexivity.
Defined.

Lemma scan_digits_all_digits (s : string) :
  forall acc k v k',
    scan_digits s acc k = (v, k', EmptyString) -> all_chars isdigit s = true.
Proof.
  induction s as [|c r IH]; intros acc k v k' H; [reflexivity|].
  cbn [scan_digits] in H. cbn [all_chars].
  destruct (isdigit c); [|discriminate H].
  cbn. exact (IH _ _ _ _ H).
Qed.

Lemma all_chars_weaken (p q : ascii -> bool) (s : string) :
  (forall c, p c = true -> q c = true) ->
  all_chars p s = true -> all_chars q s = true.
Proof.
  intros H. induction s as [|c r IH]; [reflexivity|]. cbn.
  intros E. apply andb_prop in E. destruct E as [E1 E2].
  rewrite (H c E1), (IH E2). reflexivity.
Qed.

Lemma skip_space_numeric (s : string) :
  all_chars numeric_char (skip_space s) = true -> all_chars numeric_char s = true.
Proof.
  induction s as [|c r IH]; [reflexivity|]. cbn [skip_space].
  destruct (isspace c) eqn:E; [|auto].
  intros H. cbn. unfold numeric_char at 1. rewrite E. cbn. exact (IH H).
Qed.

(** What strtol consumes entirely is made of white space, a sign and
    digits. *)
Lemma strtol_whole_numeric (s : string) (m : Z) :
  strtol s = (m, EmptyString) -> all_chars numeric_char s = true.
Proof.
  unfold strtol, scan_number.
  destruct (skip_space s) as [|c r] eqn:E.
  - cbn. intros [= _ H]. rewrite H. reflexivity.
  - assert (D : forall s2 : string,
               all_chars numeric_char s2 = true ->
               (s2 = String c r \/ (String c r = String "-" s2) \/
                (String c r = String "+" s2)) ->
               all_chars numeric_char s = true).
    { intros s2 H [->|[H2|H2]]; apply skip_space_numeric; rewrite E;
        [exact H | rewrite H2; exact H | rewrite H2; exact H]. }
    assert (W : forall d, isdigit d = true -> numeric_char d = true).
    { intros d Hd. unfold numeric_char. rewrite Hd.
      now rewrite !Bool.orb_true_r. }
    destruct (Ascii.eqb_spec c "-") as [->|Nm];
      [|destruct (Ascii.eqb_spec c "+") as [->|Np]].
    + destruct (scan_digits r 0 0) as [[v k] rest] eqn:S.
      destruct k; [intros [= _ Hs]; rewrite Hs in E; discriminate E|].
      intros [= _ ->]. apply (D r); [|auto].
      eapply all_chars_weaken; [exact W | eapply scan_digits_all_digits; exact S].
    + destruct (scan_digits r 0 0) as [[v k] rest] eqn:S.
      destruct k; [intros [= _ Hs]; rewrite Hs in E; discriminate E|].
      intros [= _ ->]. apply (D r); [|auto].
      eapply all_chars_weaken; [exact W | eapply scan_digits_all_digits; exact S].
    + assert (X : (let '(neg, s2) :=
                     match String c r with
                     | String "-" r0 => (true, r0)
                     | String "+" r0 => (false, r0)
                     | _ => (false, String c r)
                     end in
                   match scan_digits s2 0 0 with
                   | (_, O, _) => None
                   | (v, _, rest) => Some (neg, v, rest)
                   end) =
                  match scan_digits (String c r) 0 0 with
                  | (_, O, _) => None
                  | (v, _, rest) => Some (false, v, rest)
                  end).
      { destruct c as [[] [] [] [] [] [] [] []]; try reflexivity;
          exfalso; (apply Nm; reflexivity) || (apply Np; reflexivity). }
      rewrite X.
      destruct (scan_digits (String c r) 0 0) as [[v k] rest] eqn:S.
      destruct k; [intros [= _ Hs]; rewrite Hs in E; discriminate E|].
      intros [= _ ->]. apply (D (String c r)); [|auto].
      eapply all_chars_weaken; [exact W | eapply scan_digits_all_digits; exact S].
Qed.

Lemma numeric_char_no_letter (c : ascii) :
  numeric_char c = true -> scan_letter (tolower c) = false /\ c <> "000"%char.
Proof.
  destruct c as [[] [] [] [] [] [] [] []]; vm_compute; intros H;
    split; try reflexivity; try discriminate.
Qed.

Lemma numeric_string_no_letter (s : string) :
  all_chars numeric_char s = true ->
  some_char scan_letter (lower s) = false /\ nul_free s.
Proof.
  induction s as [|c r IH]; [cbn; auto|].
  cbn. intros H. apply andb_prop in H. destruct H as [H1 H2].
  destruct (numeric_char_no_letter c H1) as [L N].
  destruct (IH H2) as [L' N'].
  rewrite L, L'. auto.
Qed.

(** No mode is named by a string made of white space, a sign and digits. *)
Lemma find_mode_by_name_numeric (s : string) :
  all_chars numeric_char s = true -> find_mode_by_name s = None.
Proof.
  intros H. destruct (numeric_string_no_letter s H) as [L N].
  unfold find_mode_by_name.
  rewrite (table_scan_ext _ (fun _ _ => false)); [reflexivity|].
  intros e n Hin En.
  destruct (Z.eqb_spec (strcasecmp n s) 0) as [E|E]; [exfalso|reflexivity].
  apply strcasecmp_zero in E;
    [|eapply mode_names_nul_free; eauto | exact N].
  assert (P : some_char scan_letter (lower n) = true).
  { unfold mode_table in Hin. cbn in Hin.
    repeat (destruct Hin as [<-|Hin]; [injection En as <-; reflexivity|]).
    destruct Hin as [<-|[]]. discriminate En. }
  rewrite E, L in P. discriminate P.
Qed.

(** X19: [hdmi mode] with a number outside the range of mode identifiers
    (negative, or 31 and above) does nothing and reports success: no
    system call is issued, no global changes, and the result is 0. *)
Theorem hdmi_mode_out_of_range_is_silent
        (env : oracle) (s : string) (m : Z) (w : world) :
  strtol s = (m, EmptyString) -> m < 0 \/ DISP_TV_MODE_NUM <= m ->
  main_hdmi_mode env s w = (0, w).
Proof.
  intros Hs Hm.
  pose proof (find_mode_by_name_numeric s (strtol_whole_numeric s m Hs)) as F.
  unfold main_hdmi_mode. rewrite Hs. cbn [negb].
  assert (R : (0 <=? m) && (m <? DISP_TV_MODE_NUM) = false).
  { unfold DISP_TV_MODE_NUM in *.
    destruct (Z.leb_spec 0 m), (Z.ltb_spec m 31); cbn; try reflexivity;
      exfalso; lia. }
  cbn [andb]. rewrite R. rewrite F. reflexivity.
Qed.

Lemma hdmi_mode_out_of_range_is_silent_witness :
  strtol "99" = (99, EmptyString) /\ (99 < 0 \/ DISP_TV_MODE_NUM <= 99) /\
  main_hdmi_mode a20_board "99" a20_open_world = (0, a20_open_world).
Proof.
  assert (H : 99 < 0 \/ DISP_TV_MODE_NUM <= 99)
    by (right; unfold DISP_TV_MODE_NUM; lia).
  split; [reflexivity|]. split; [exact H|].
  exact (hdmi_mode_out_of_range_is_silent a20_board "99" 99 a20_open_world
           eq_refl H).
Defined.

(** ** The option loop *)

Lemma parse_options_invariants (k : nat) :
  forall args w, (List.length args <= k)%nat ->
  let o := fst (parse_options args w) in
  let w' := snd (parse_options args w) in
  (trace w' = trace w /\ g_disp_fd w' = g_disp_fd w /\ g_fb_fd w' = g_fb_fd w /\
   g_de_version w' = g_de_version w) /\
  (g_verbose w' = g_verbose w \/ g_verbose w' = 1) /\
  (g_force w' = g_force w \/ g_force w' = 1) /\
  match o with
  | OptReturn code => code = 0 \/ code = 1
  | OptCommand rest =>
      (exists opts, args = opts ++ rest) /\ command_word_ok rest /\
      (g_screen w' = g_screen w \/ 0 <= g_screen w' <= 1)
  end.
Proof.
  induction k as [|k IH]; intros args w Hlen; cbv zeta.
  - destruct args; [|cbn in Hlen; lia]. cbn.
    repeat split; auto. exists []. reflexivity.
  - destruct args as [|a rest].
    { cbn. repeat split; auto. exists []. reflexivity. }
    cbn in Hlen. cbn [parse_options].
    destruct (starts_with_dash a) eqn:Ed.
    2:{ cbn. repeat split; auto. exists []. reflexivity. }
    destruct (String.eqb a "-v").
    { unfold bind, modify.
      destruct (IH rest (set_verbose 1 w)) as (F & V & Fo & O); [lia|].
      cbn in F, V, Fo.
      split; [exact F|]. split; [destruct V as [V|V]; rewrite V; auto|].
      split; [exact Fo|].
      destruct (fst (parse_options rest (set_verbose 1 w))); [exact O|].
      destruct O as ((opts & ->) & C & S). split; [exists (a :: opts); reflexivity|].
      split; [exact C | exact S]. }
    destruct (String.eqb a "-f").
    { unfold bind, modify.
      destruct (IH rest (set_force 1 w)) as (F & V & Fo & O); [lia|].
      cbn in F, V, Fo.
      split; [exact F|]. split; [exact V|].
      split; [destruct Fo as [Fo|Fo]; rewrite Fo; auto|].
      destruct (fst (parse_options rest (set_force 1 w))); [exact O|].
      destruct O as ((opts & ->) & C & S). split; [exists (a :: opts); reflexivity|].
      split; [exact C | exact S]. }
    destruct (String.eqb a "-s"); destruct rest as [|s rest'];
      try solve [destruct (String.eqb a "-h" || String.eqb a "--help"); cbn;
                 repeat split; auto].
    unfold bind, modify, gets. cbn [fst snd g_screen set_screen].
    destruct (Z.ltb_spec 1 (to_u32 (atoi s))) as [B|B].
    { cbn. repeat split; auto. }
    destruct (IH rest' (set_screen (to_u32 (atoi s)) w)) as (F & V & Fo & O);
      [cbn in Hlen; lia|].
    cbn in F, V, Fo.
    split; [exact F|]. split; [exact V|]. split; [exact Fo|].
    destruct (fst (parse_options rest' (set_screen (to_u32 (atoi s)) w))); [exact O|].
    destruct O as ((opts & ->) & C & S).
    split; [exists (a :: s :: opts); reflexivity|]. split; [exact C|].
    right. cbn in S.
    assert (0 <= to_u32 (atoi s)) by (unfold to_u32; apply Z.mod_pos_bound; lia).
    destruct S as [S|S]; [rewrite S; lia | exact S].
Qed.

(** X20: the option loop issues no system call and touches neither the
    descriptors nor the generation; [-v] and [-f] can only raise their
    flags to 1.  It ends early only with code 0 or 1, and [main] then
    returns that code at once.  Otherwise it stops at a suffix of the
    arguments whose first word does not start with a dash, with the
    screen number either untouched or 0 or 1. *)
Theorem parse_options_behaviour (env : oracle) (prog : string)
        (args : list string) (w : world) :
  let o := fst (parse_options args w) in
  let w' := snd (parse_options args w) in
  (trace w' = trace w /\ g_disp_fd w' = g_disp_fd w /\ g_fb_fd w' = g_fb_fd w /\
   g_de_version w' = g_de_version w) /\
  (g_verbose w' = g_verbose w \/ g_verbose w' = 1) /\
  (g_force w' = g_force w \/ g_force w' = 1) /\
  match o with
  | OptReturn code =>
      (code = 0 \/ code = 1) /\ main env (prog :: args) w = (code, w')
  | OptCommand rest =>
      (exists opts, args = opts ++ rest) /\ command_word_ok rest /\
      (g_screen w' = g_screen w \/ 0 <= g_screen w' <= 1)
  end.
Proof.
  cbv zeta.
  destruct (parse_options_invariants _ args w (le_n _)) as (F & V & Fo & O).
  split; [exact F|]. split; [exact V|]. split; [exact Fo|].
  destruct (fst (parse_options args w)) as [code|rest] eqn:E; [|exact O].
  split; [exact O|].
  destruct args as [|a args']; [cbn in E; discriminate E|].
  unfold main, bind.
  destruct (parse_options (a :: args') w) as [o w0]. cbn in E |- *. subst o.
  reflexivity.
Qed.

(** ** Scaling commands *)

Lemma setup_equal_sizes_unscaled (env : oracle) (fb_id a b depth : Z) :
  confined unscaled_request (setup_fb_with_scaling env fb_id a b a b depth).
Proof.
  unfold setup_fb_with_scaling.
  apply confined_bind; [apply confined_gets|]. intros v.
  destruct v; [apply confined_ret | |].
  - unfold de1_setup_fb_with_scaling, de1_fb_release, de1_fb_request, disp_ioctl.
    apply confined_bind; [looking|]. intros _.
    apply confined_bind; [apply confined_gets|]. intros scr.
    apply confined_bind; [|intros r; destruct (r <? 0); apply confined_ret].
    apply confined_bind; [|intros; apply confined_ret].
    apply confined_bind; [apply confined_gets|]. intros fd.
    destruct (fd <? 0); [apply confined_gets|].
    apply confined_sys. cbn. rewrite !Z.eqb_refl. reflexivity.
  - unfold de2_setup_fb_with_scaling. repeat confined_step.
Qed.

(** X21: [noscale] never asks for scaling: whatever the arguments and
    the environment, every framebuffer request it sends carries work mode
    normal and an output size equal to the framebuffer size. *)
Theorem noscale_requests_unscaled (env : oracle) (rest : list string) (w : world) :
  exists new,
    trace (snd (main_noscale env rest w)) = trace w ++ new /\
    only unscaled_request new.
Proof.
  assert (C : confined unscaled_request (main_noscale env rest)).
  { unfold main_noscale.
    apply confined_bind; [looking|]. intros [s [sw sh]].
    destruct (s <? 0); [apply confined_ret|].
    destruct (1 <=? List.length rest)%nat.
    - destruct (bad_depth _); [apply confined_ret|].
      apply setup_equal_sizes_unscaled.
    - apply confined_bind; [looking|]. intros [g vinfo].
      apply setup_equal_sizes_unscaled. }
  destruct (C w) as (new & T & O). exists new. auto.
Qed.

Lemma get_fb_info_keeps_version (env : oracle) v0 b :
  preserves g_de_version (get_fb_info env v0 b).
Proof. framed. Qed.

Lemma get_screen_size_keeps_version (env : oracle) a b :
  preserves g_de_version (get_screen_size env a b).
Proof. framed. Qed.

(** X22: on generation 2 [autoscale] changes nothing: it makes its
    read-only queries and returns 0 or 1, never calling the setup, since
    the display engine scales by itself. *)
Theorem autoscale_de2_changes_nothing
        (env : oracle) (rest : list string) (w : world) :
  g_de_version w = DE_VERSION_2 ->
  exists new,
    trace (snd (main_autoscale env rest w)) = trace w ++ new /\
    only read_only new /\
    (fst (main_autoscale env rest w) = 0 \/ fst (main_autoscale env rest w) = 1).
Proof.
  intros Hv. unfold main_autoscale, bind.
  pose proof (get_fb_info_keeps_version env uninit_vinfo false w) as V1.
  assert (Q1 : confined read_only (get_fb_info env uninit_vinfo false)) by looking.
  destruct (Q1 w) as (n1 & T1 & O1).
  destruct (get_fb_info env uninit_vinfo false w) as [[g vinfo] w1].
  cbn [fst snd] in V1, T1, O1 |- *.
  destruct (g <? 0).
  { exists n1. unfold ret. cbn [fst snd]. auto. }
  pose proof (get_screen_size_keeps_version env uninit uninit w1) as V2.
  assert (Q2 : confined read_only (get_screen_size env uninit uninit)) by looking.
  destruct (Q2 w1) as (n2 & T2 & O2).
  destruct (get_screen_size env uninit uninit w1) as [[s [sw sh]] w2].
  cbn [fst snd] in V2, T2, O2 |- *.
  assert (T : trace w2 = trace w ++ (n1 ++ n2)) by (rewrite T2, T1, app_assoc; reflexivity).
  assert (O : only read_only (n1 ++ n2)) by (apply only_app; assumption).
  destruct (s <? 0); [exists (n1 ++ n2); unfold ret; cbn [fst snd]; auto|].
  destruct (_ && bad_depth _); [exists (n1 ++ n2); unfold ret; cbn [fst snd]; auto|].
  destruct (_ && _); [exists (n1 ++ n2); unfold ret; cbn [fst snd]; auto|].
  unfold gets. cbn [fst snd].
  rewrite V2, V1, Hv. unfold ret. cbn. exists (n1 ++ n2). auto.
Qed.

Lemma autoscale_de2_changes_nothing_witness :
  g_de_version h3_open_world = DE_VERSION_2 /\
  exists new,
    trace (snd (main_autoscale h3_board [] h3_open_world))
      = trace h3_open_world ++ new /\
    only read_only new.
Proof.
  split; [reflexivity|].
  destruct (autoscale_de2_changes_nothing h3_board [] h3_open_world eq_refl)
    as (new & T & O & _).
  exists new. split; [exact T | exact O].
Defined.

(** ** Argument parsing *)

Ltac scan_x c :=
  destruct c as [[] [] [] [] [] [] [] []]; cbn;
  try solve [repeat split; (reflexivity || lia || (intros; lia))].

(** X23: the first scan of [parse_resolution] decides its result: the
    second [sscanf] never turns a failure into a success and stores
    nothing new.  On failure the height is left as it was (the width may
    have been overwritten), and the refresh rate is 0 unless all three
    numbers were converted. *)
Theorem parse_resolution_decided_by_first_scan (str : string) (w h : Z) :
  let n := fst (sscanf_u_x_u_at_u str w h 0) in
  let vars := snd (sscanf_u_x_u_at_u str w h 0) in
  parse_resolution str w h = (if 2 <=? n then 0 else -1, vars) /\
  (n < 2 -> snd (fst vars) = h) /\
  (n < 3 -> snd vars = 0) /\
  -1 <= n <= 3.
Proof.
  cbv zeta. unfold parse_resolution, sscanf_u_x_u_at_u, sscanf_u_x_u, scan_EOF.
  destruct (scan_u str) as [[a s1]|] eqn:E1.
  2:{ destruct (at_end str); cbn; rewrite ?E1; cbn;
      repeat split; (reflexivity || lia). }
  destruct s1 as [|c s2].
  { cbn. rewrite ?E1. cbn. repeat split; (reflexivity || lia). }
  scan_x c; try solve [rewrite ?E1; cbn; repeat split; (reflexivity || lia)].
  destruct (scan_u s2) as [[b s3]|] eqn:E2.
  2:{ cbn. rewrite ?E1, ?E2. cbn. repeat split; (reflexivity || lia). }
  destruct s3 as [|c3 s4].
  { cbn. repeat split; (reflexivity || lia). }
  scan_x c3.
  destruct (scan_u s4) as [[r s5]|]; cbn; repeat split; (reflexivity || lia).
Qed.

(** X24: [parse_resolution_depth] returns 0 or -1.  A string it accepts
    is also accepted by [parse_resolution], with the same width and
    height and refresh rate 0; one it rejects leaves the depth as it
    was. *)
Theorem depth_format_extends_resolution (str : string) (w h d : Z) :
  let p := fst (parse_resolution_depth str w h d) in
  let vars := snd (parse_resolution_depth str w h d) in
  (p = 0 \/ p = -1) /\
  (p = 0 -> parse_resolution str w h = (0, (fst vars, 0))) /\
  (p = -1 -> snd vars = d).
Proof.
  cbv zeta.
  unfold parse_resolution_depth, parse_resolution, sscanf_u_x_u_x_d,
    sscanf_u_x_u_at_u, sscanf_u_x_u, scan_EOF.
  destruct (scan_u str) as [[a s1]|] eqn:E1.
  2:{ destruct (at_end str); cbn;
      (split; [auto|split; [intros [=]|reflexivity]]). }
  destruct s1 as [|c s2].
  { cbn. split; [auto|split; [intros [=]|reflexivity]]. }
  scan_x c; try solve [split; [auto|split; [intros [=]|reflexivity]]].
  destruct (scan_u s2) as [[b s3]|] eqn:E2.
  2:{ cbn. split; [auto|split; [intros [=]|reflexivity]]. }
  destruct s3 as [|c3 s4].
  { cbn. split; [auto|split; [intros [=]|reflexivity]]. }
  scan_x c3; try solve [split; [auto|split; [intros [=]|reflexivity]]].
  destruct (scan_d s4) as [[dd s5]|]; cbn;
    (split; [auto|split; [intros _; reflexivity || intros [=]|
                          reflexivity || intros [=]]]).
Qed.
